(** * The Cinder storage backend of glance_store

    A shallow embedding of [glance_store/_drivers/cinder.py]: the location
    class [StoreLocation] (the [cinder://<volume-id>] URI) and the driver
    class [Store] (construction, context check, client factory, [get_size]),
    followed by the properties of the specification that concern them. *)

From Stdlib Require Import ZArith String Ascii List Lia.
From stdpp Require Import base gmap strings list.

Local Open Scope string_scope.
Local Open Scope Z_scope.

(** ** Python values and exceptions *)

(** The values that location attributes and spec mappings hold: [None] or a
    [str]. *)
Inductive pyval :=
| PyNone
| PyStr (s : string).

(** ["%s" % v] *)
Definition py_str (v : pyval) : string :=
  match v with
  | PyNone => "None"
  | PyStr s => s
  end.

(** [d.get(key, default)] *)
Definition dict_get (d : gmap string pyval) (key : string) (dflt : pyval) : pyval :=
  default dflt (d !! key).

(** [s.startswith(p)] *)
Definition startswith (s p : string) : bool := String.prefix p s.

(** [s[n:]] *)
Fixpoint slice_from (n : nat) (s : string) : string :=
  match n, s with
  | O, _ => s
  | S n', String _ s' => slice_from n' s'
  | S _, EmptyString => EmptyString
  end.
Arguments slice_from : simpl nomatch.

(** [s.split(sep)] for a one-character separator: one field more than there
    are separators, empty fields kept. *)
Fixpoint str_split (sep : ascii) (s : string) : list string :=
  match s with
  | EmptyString => [EmptyString]
  | String c s' =>
      if Ascii.eqb c sep then EmptyString :: str_split sep s'
      else match str_split sep s' with
           | field :: fields => String c field :: fields
           | [] => [String c EmptyString]
           end
  end.

(** [s.count(sep)] *)
Fixpoint str_count (sep : ascii) (s : string) : nat :=
  match s with
  | EmptyString => O
  | String c s' => ((if Ascii.eqb c sep then 1 else 0) + str_count sep s')%nat
  end.

(** Exceptions.  The ones this module raises itself carry the arguments
    they are built with; [Foreign] is any exception raised by a collaborator
    (cinderclient, keystoneclient, the request context): the qualified names
    of its class and of that class's bases, own class first, and its text.
    Every exception of the model is an error, an instance of [Exception]; the
    few that derive from [BaseException] alone ([KeyboardInterrupt],
    [SystemExit]) are not failures of a call and are left out. *)
Inductive exn :=
| BadStoreUri (message : string)
| BadStoreConfiguration (store_name reason : string)
| NotFound (message : string)
| AttributeError (type_name attribute : string)
| ValueError (message : string)
| Foreign (classes : list string) (text : string).

(** Modelled from the spec: the exception classes of
    glance_store/exceptions.py, which is not among the sources.
    [BadStoreUri] (the specification's BadLocationFormat),
    [BadStoreConfiguration] and [NotFound] are three distinct caller-facing
    kinds of error of the store library; they have nothing to do with the
    classes of cinderclient and keystoneclient.  [AttributeError] and
    [ValueError] are Python's. *)
Definition classes_of (e : exn) : list string :=
  match e with
  | BadStoreUri _ =>
      ["glance_store.exceptions.BadStoreUri";
       "glance_store.exceptions.GlanceStoreException"]
  | BadStoreConfiguration _ _ =>
      ["glance_store.exceptions.BadStoreConfiguration";
       "glance_store.exceptions.GlanceStoreException"]
  | NotFound _ =>
      ["glance_store.exceptions.NotFound";
       "glance_store.exceptions.GlanceStoreException"]
  | AttributeError _ _ => ["AttributeError"]
  | ValueError _ => ["ValueError"]
  | Foreign classes _ => classes
  end.

Definition mro (e : exn) : list string :=
  (classes_of e ++ ["Exception"; "BaseException"; "object"])%list.

(** [isinstance(e, cls)], which is what an [except cls] clause tests. *)
Definition isinstance (e : exn) (cls : string) : bool :=
  bool_decide (cls ∈ mro e).

(** The classes the [except] clauses of the driver name. *)
Module cinder_exception.
Definition NotFound : string := "cinderclient.exceptions.NotFound".
End cinder_exception.

Module ks_exceptions.
Definition EndpointNotFound : string := "keystoneclient.exceptions.EndpointNotFound".
End ks_exceptions.

Module exceptions.
Definition NotFound : string := "glance_store.exceptions.NotFound".
Definition BadStoreConfiguration : string := "glance_store.exceptions.BadStoreConfiguration".
Definition BadStoreUri : string := "glance_store.exceptions.BadStoreUri".
End exceptions.

(** The result of running a piece of Python: a value or a raised exception. *)
Inductive outcome (A : Type) :=
| Return (a : A)
| Raise (e : exn).
Arguments Return {A} a.
Arguments Raise {A} e.

(** ** Configuration and collaborators *)

(** The options [session.Session.get_conf_options] registers. *)
Record SessionOpts := {
  cafile : option string;
  certfile : option string;
  keyfile : option string;
  insecure : bool;
  timeout : option Z
}.

(** The options of the [glance_store] group ([_CINDER_OPTS]). *)
Record StoreOpts := {
  cinder_catalog_info : string;
  cinder_endpoint_template : option string;
  os_region_name : option string;
  cinder_http_retries : Z;
  session_options : SessionOpts
}.

Record Conf := { glance_store : StoreOpts }.

(** A keystoneclient session: the group it was loaded from and the options
    it was loaded with. *)
Record Session := {
  session_group : string;
  session_loaded : SessionOpts
}.

(** [session.Session.load_from_conf_options(conf, group)] *)
Definition load_from_conf_options (conf : Conf) (group : string) : Session :=
  {| session_group := group;
     session_loaded := session_options (glance_store conf) |}.

Inductive AuthPlugin :=
| Plugin (name : string).

(** The request context, a duck-typed object: what its two methods give. *)
Record Context := {
  to_dict : outcome (gmap string pyval);
  get_auth_plugin : outcome AuthPlugin
}.

(** [cinderclient.Client(...)]: the keyword arguments it is built with. *)
Record CinderClient := {
  client_session : Session;
  client_auth : AuthPlugin;
  client_region_name : option string;
  client_retries : Z
}.

(** What [client.volumes.get] returns: [volume.size], in gigabytes. *)
Module Volume.
Record t := { size : Z }.
End Volume.

(** A request to the volume service. *)
Inductive request :=
| VolumesGet (client : CinderClient) (volume_id : pyval).

(** Records of the module logger [LOG].  [LogException fmt e] is
    [LOG.exception(fmt % e)]. *)
Inductive log_record :=
| LogInfo (msg : string)
| LogError (msg : string)
| LogException (fmt : string) (e : exn).

(** ** Effects: the object [self], the log and the wire *)

Record state (O : Type) := State {
  this : O;
  LOG : list log_record;
  wire : list request
}.
Arguments State {O} this LOG wire.
Arguments this {O} s.
Arguments LOG {O} s.
Arguments wire {O} s.

Definition M (O A : Type) : Type := state O -> outcome A * state O.

Section Effects.
Context {O : Type}.

Definition ret {A} (a : A) : M O A := fun st => (Return a, st).

Definition raise {A} (e : exn) : M O A := fun st => (Raise e, st).

Definition bind {A B} (c : M O A) (k : A -> M O B) : M O B :=
  fun st =>
    match c st with
    | (Return a, st') => k a st'
    | (Raise e, st') => (Raise e, st')
    end.

(** [try: body / except ... as e: handler e].  An exception raised by the
    handler itself leaves the statement. *)
Definition try_except {A} (body : M O A) (handler : exn -> M O A) : M O A :=
  fun st =>
    match body st with
    | (Return a, st') => (Return a, st')
    | (Raise e, st') => handler e st'
    end.

(** The value or exception of a call into a collaborator. *)
Definition call {A} (r : outcome A) : M O A := fun st => (r, st).

Definition getattr {A} (field : O -> A) : M O A :=
  fun st => (Return (field (this st)), st).

Definition setattr (update : O -> O) : M O unit :=
  fun st => (Return tt, State (update (this st)) (LOG st) (wire st)).

Definition log (r : log_record) : M O unit :=
  fun st => (Return tt, State (this st) (LOG st ++ [r])%list (wire st)).

Definition send (r : request) : M O unit :=
  fun st => (Return tt, State (this st) (LOG st) (wire st ++ [r])%list).
End Effects.

Notation "'let!' x ':=' c 'in' k" := (bind c (fun x => k))
  (at level 10, x name, c at level 200, k at level 200).

(** ** glance_store.common.utils *)

(** The module is not among the sources; [is_uuid_like] is the one function
    of it the driver calls, and the three definitions before it are its
    parts. *)
Module utils.
Definition is_hex_digit (c : ascii) : bool :=
  let n := nat_of_ascii c in
  ((48 <=? n) && (n <=? 57) || (97 <=? n) && (n <=? 102)
   || (65 <=? n) && (n <=? 70))%nat.

(** Reads exactly [n] hexadecimal digits and gives the rest. *)
Fixpoint hex_group (n : nat) (s : string) : option string :=
  match n with
  | O => Some s
  | S n' =>
      match s with
      | String c s' => if is_hex_digit c then hex_group n' s' else None
      | EmptyString => None
      end
  end.

Fixpoint hex_groups (groups : list nat) (s : string) : bool :=
  match groups with
  | [] => false
  | [n] =>
      match hex_group n s with
      | Some EmptyString => true
      | _ => false
      end
  | n :: rest =>
      match hex_group n s with
      | Some (String "-" s') => hex_groups rest s'
      | _ => false
      end
  end.

(** Modelled from the spec: [is_uuid_like] of glance_store/common/utils.py,
    which is not among the sources.  A value is UUID-like when it is a
    string of hexadecimal groups separated by hyphens, in the standard
    8-4-4-4-12 shape, in either case. *)
Definition is_uuid_like (val : pyval) : bool :=
  match val with
  | PyStr s => hex_groups [8; 4; 4; 4; 12]%nat s
  | PyNone => false
  end.
End utils.

(** ** class StoreLocation *)

Record StoreLocation := {
  specs : gmap string pyval;
  scheme : pyval;
  volume_id : pyval
}.

Definition set_scheme (v : pyval) (self : StoreLocation) : StoreLocation :=
  {| specs := specs self; scheme := v; volume_id := volume_id self |}.

Definition set_volume_id (v : pyval) (self : StoreLocation) : StoreLocation :=
  {| specs := specs self; scheme := scheme self; volume_id := v |}.

Definition process_specs : M StoreLocation unit :=
  let! specs := getattr specs in
  let! _ := setattr (set_scheme (dict_get specs "scheme" (PyStr "cinder"))) in
  setattr (set_volume_id (dict_get specs "volume_id" PyNone)).

Definition get_uri (self : StoreLocation) : string :=
  "cinder://" ++ py_str (volume_id self).

Section ParseUri.
(** [utils.is_uuid_like] *)
Variable is_uuid_like : pyval -> bool.

Definition parse_uri (uri : string) : M StoreLocation unit :=
  if negb (startswith uri "cinder://") then
    let reason := "URI must start with 'cinder://'" in
    let! _ := log (LogInfo reason) in
    raise (BadStoreUri reason)
  else
    let! _ := setattr (set_scheme (PyStr "cinder")) in
    let! _ := setattr (set_volume_id (PyStr (slice_from 9 uri))) in
    let! volume_id := getattr volume_id in
    if negb (is_uuid_like volume_id) then
      let reason := "URI contains invalid volume ID" in
      let! _ := log (LogInfo reason) in
      raise (BadStoreUri reason)
    else ret tt.
End ParseUri.

(** ** class Store *)

(** A driver instance: the attributes [__init__] sets, and in [other_attrs]
    whatever further attributes the instance has, by name. *)
Record Store := {
  conf : Conf;
  session : Session;
  service_type : string;
  service_name : string;
  endpoint_type : string;
  other_attrs : gmap string pyval
}.

(** [self.<name>] for a name that is none of the attributes above. *)
Definition getattr_by_name (name : string) : M Store pyval :=
  fun st =>
    match other_attrs (this st) !! name with
    | Some v => (Return v, st)
    | None => (Raise (AttributeError "Store" name), st)
    end.

Record Location := { store_location : StoreLocation }.

(** [super(Store, self).__init__(conf)] belongs to the base driver class,
    which is not among the sources: it keeps [conf], and [other] stands for
    whatever else it leaves on the instance.  [a, b, c = info] raises
    [ValueError] unless [info] has three items. *)
Definition __init__ (other : gmap string pyval) (conf : Conf) : outcome Store :=
  let session := load_from_conf_options conf "glance_store" in
  let info := str_split ":" (cinder_catalog_info (glance_store conf)) in
  match info with
  | [service_type; service_name; endpoint_type] =>
      Return {| conf := conf; session := session;
                service_type := service_type; service_name := service_name;
                endpoint_type := endpoint_type; other_attrs := other |}
  | [_] => Raise (ValueError "need more than 1 value to unpack")
  | [_; _] => Raise (ValueError "need more than 2 values to unpack")
  | _ => Raise (ValueError "too many values to unpack")
  end.

Definition get_schemes : list string := ["cinder"].

Definition _check_context (context : option Context) : M Store unit :=
  match context with
  | None =>
      let reason := "Cinder storage requires a context." in
      raise (BadStoreConfiguration "cinder" reason)
  | Some _ => ret tt
  end.

(** Method calls on the context, which may be [None]. *)
Definition context_to_dict (context : option Context) : outcome (gmap string pyval) :=
  match context with
  | Some c => to_dict c
  | None => Raise (AttributeError "NoneType" "to_dict")
  end.

Definition context_get_auth_plugin (context : option Context) : outcome AuthPlugin :=
  match context with
  | Some c => get_auth_plugin c
  | None => Raise (AttributeError "NoneType" "get_auth_plugin")
  end.

(** Truth value of a string option: [None] and [""] are false. *)
Definition truthy (o : option string) : bool :=
  match o with
  | Some s => negb (String.eqb s "")
  | None => false
  end.

Section Driver.
(** [template % mapping], Python's string formatting. *)
Variable str_mod : string -> gmap string pyval -> outcome string.
(** The volume service behind [client.volumes.get(volume_id)]. *)
Variable volumes_get : CinderClient -> pyval -> outcome Volume.t.

Definition _get_cinderclient (context : option Context) : M Store CinderClient :=
  let! conf := getattr conf in
  let endpoint_override := cinder_endpoint_template (glance_store conf) in
  let! endpoint_override :=
    (if truthy endpoint_override then
       let! mapping := call (context_to_dict context) in
       let! endpoint := call (str_mod (default "" endpoint_override) mapping) in
       ret (Some endpoint)
     else ret endpoint_override) in
  let! auth_plugin := call (context_get_auth_plugin context) in
  let! session := getattr session in
  ret {| client_session := session;
         client_auth := auth_plugin;
         client_region_name := os_region_name (glance_store conf);
         client_retries := cinder_http_retries (glance_store conf) |}.

(** [client.volumes.get(volume_id)]: one request on the wire. *)
Definition client_volumes_get (client : CinderClient) (volume_id : pyval)
  : M Store Volume.t :=
  let! _ := send (VolumesGet client volume_id) in
  call (volumes_get client volume_id).

(** The translation function [_] leaves its message as it is. *)
Definition get_size (location : Location) (context : option Context) : M Store Z :=
  let loc := store_location location in
  try_except
    (let! _ := _check_context context in
     let! client := _get_cinderclient context in
     let! volume := client_volumes_get client (volume_id loc) in
     ret (Volume.size volume * 1024 ^ 3))
    (fun e =>
       if isinstance e cinder_exception.NotFound then
         let! volume_id := getattr_by_name "volume_id" in
         let reason :=
           "Failed to get image size due to volume can not be found: "
           ++ py_str volume_id in
         let! _ := log (LogError reason) in
         raise (NotFound reason)
       else if isinstance e ks_exceptions.EndpointNotFound then
         let reason := "Cinder endpoint could not be determined" in
         raise (BadStoreConfiguration "cinder" reason)
       else if isinstance e "Exception" then
         let! _ :=
           log (LogException "Failed to get image size due to internal error: %s" e) in
         ret 0
       else raise e).

(** For the statements below: the client [_get_cinderclient] builds once the
    template, if any, has been interpolated and the context has given its
    plugin, and what interpolating the configured template does. *)
Definition built_client (self : Store) (auth : AuthPlugin) : CinderClient :=
  {| client_session := session self;
     client_auth := auth;
     client_region_name := os_region_name (glance_store (conf self));
     client_retries := cinder_http_retries (glance_store (conf self)) |}.

Definition interpolation (self : Store) (context : option Context) : outcome unit :=
  let template := cinder_endpoint_template (glance_store (conf self)) in
  if truthy template then
    match context_to_dict context with
    | Return mapping =>
        match str_mod (default "" template) mapping with
        | Return _ => Return tt
        | Raise e => Raise e
        end
    | Raise e => Raise e
    end
  else Return tt.
End Driver.

(** * Vocabulary of the statements *)

(** ** The UUID shape, in the words of the specification *)

Definition hex_string (n : nat) (g : string) : Prop :=
  String.length g = n /\
  Forall (fun c => utils.is_hex_digit c = true) (list_ascii_of_string g).

Definition uuid_shape (s : string) : Prop :=
  exists a b c d e,
    s = a ++ "-" ++ b ++ "-" ++ c ++ "-" ++ d ++ "-" ++ e /\
    hex_string 8 a /\ hex_string 4 b /\ hex_string 4 c /\
    hex_string 4 d /\ hex_string 12 e.

(** Upper-casing, to say that case does not matter. *)
Definition upper_ascii (c : ascii) : ascii :=
  let n := nat_of_ascii c in
  if ((97 <=? n) && (n <=? 122))%nat then ascii_of_nat (n - 32) else c.

Fixpoint upper (s : string) : string :=
  match s with
  | EmptyString => EmptyString
  | String c s' => String (upper_ascii c) (upper s')
  end.

(** A location object before and after parsing the URI of the
    specification's scenario. *)
Definition blank_location : StoreLocation :=
  {| specs := ∅; scheme := PyNone; volume_id := PyNone |}.

Definition parsed_location : StoreLocation :=
  {| specs := ∅; scheme := PyStr "cinder";
     volume_id := PyStr "2aa1d1c2-5f0c-4e8f-8e0d-111111111111" |}.

(** A stand-in for Python's [template % mapping] on templates made of text,
    [%(key)s] and [%%]; a missing key is a [KeyError].  It instantiates
    [str_mod] where the model is run. *)
Inductive format_mode :=
| Text
| Percent
| Key (name : string)
| Conversion (name : string).

Fixpoint percent_format_from (mode : format_mode) (template : string)
  (mapping : gmap string pyval) : outcome string :=
  let prepend (s : string) (r : outcome string) : outcome string :=
    match r with
    | Return t => Return (s ++ t)
    | Raise e => Raise e
    end in
  match template with
  | EmptyString =>
      match mode with
      | Text => Return EmptyString
      | _ => Raise (ValueError "incomplete format")
      end
  | String c rest =>
      match mode with
      | Text =>
          if Ascii.eqb c "%" then percent_format_from Percent rest mapping
          else prepend (String c EmptyString) (percent_format_from Text rest mapping)
      | Percent =>
          if Ascii.eqb c "(" then percent_format_from (Key EmptyString) rest mapping
          else if Ascii.eqb c "%" then
            prepend "%" (percent_format_from Text rest mapping)
          else Raise (ValueError "unsupported format character")
      | Key name =>
          if Ascii.eqb c ")" then percent_format_from (Conversion name) rest mapping
          else percent_format_from (Key (name ++ String c EmptyString)) rest mapping
      | Conversion name =>
          if Ascii.eqb c "s" then
            match mapping !! name with
            | Some v => prepend (py_str v) (percent_format_from Text rest mapping)
            | None => Raise (Foreign ["KeyError"; "LookupError"] name)
            end
          else Raise (ValueError "unsupported format character")
      end
  end.

Definition percent_format : string -> gmap string pyval -> outcome string :=
  percent_format_from Text.

(** A deployment to run the model on. *)
Definition example_conf (template : option string) (catalog_info : string) : Conf :=
  {| glance_store :=
       {| cinder_catalog_info := catalog_info;
          cinder_endpoint_template := template;
          os_region_name := Some "RegionOne";
          cinder_http_retries := 3;
          session_options :=
            {| cafile := None; certfile := None; keyfile := None;
               insecure := false; timeout := None |} |} |}.

Definition example_store (template : option string) : Store :=
  let conf := example_conf template "volume:cinder:publicURL" in
  {| conf := conf;
     session := load_from_conf_options conf "glance_store";
     service_type := "volume";
     service_name := "cinder";
     endpoint_type := "publicURL";
     other_attrs := ∅ |}.

Definition example_context : Context :=
  {| to_dict := Return {[ "project_id" := PyStr "7c1f" ]};
     get_auth_plugin := Return (Plugin "token") |}.

Definition example_location : Location :=
  {| store_location :=
       {| specs := ∅; scheme := PyStr "cinder";
          volume_id := PyStr "2aa1d1c2-5f0c-4e8f-8e0d-111111111111" |} |}.

Definition example_client : CinderClient :=
  {| client_session :=
       load_from_conf_options (example_conf None "volume:cinder:publicURL") "glance_store";
     client_auth := Plugin "token";
     client_region_name := Some "RegionOne";
     client_retries := 3 |}.

(** Volume services: one that reports a size, one that fails. *)
Definition reporting (gigabytes : Z) : CinderClient -> pyval -> outcome Volume.t :=
  fun _ _ => Return {| Volume.size := gigabytes |}.

Definition failing (e : exn) : CinderClient -> pyval -> outcome Volume.t :=
  fun _ _ => Raise e.

Definition volume_not_found : exn :=
  Foreign ["cinderclient.exceptions.NotFound"; "cinderclient.exceptions.ClientException"]
    "Volume could not be found. (HTTP 404)".

Definition endpoint_not_found : exn :=
  Foreign ["keystoneclient.exceptions.EndpointNotFound";
           "keystoneclient.exceptions.CatalogException";
           "keystoneclient.exceptions.ClientException"]
    "Could not find requested endpoint in Service Catalog.".

Definition connection_refused : exn :=
  Foreign ["keystoneclient.exceptions.ConnectionRefused";
           "keystoneclient.exceptions.ClientException"]
    "Unable to establish connection".

Definition example_template : string := "http://localhost:8776/v1/%(project_id)s".

(** The same driver instance with another endpoint template and other
    catalog fields. *)
Definition reconfigured (template : option string)
  (service_type service_name endpoint_type : string) (self : Store) : Store :=
  let options := glance_store (conf self) in
  {| conf :=
       {| glance_store :=
            {| cinder_catalog_info := cinder_catalog_info options;
               cinder_endpoint_template := template;
               os_region_name := os_region_name options;
               cinder_http_retries := cinder_http_retries options;
               session_options := session_options options |} |};
     session := session self;
     service_type := service_type;
     service_name := service_name;
     endpoint_type := endpoint_type;
     other_attrs := other_attrs self |}.

(** [sep.join(fields)] *)
Fixpoint str_join (sep : ascii) (fields : list string) : string :=
  match fields with
  | [] => EmptyString
  | [field] => field
  | field :: rest => field ++ String sep (str_join sep rest)
  end.

(** The defaults of [_CINDER_OPTS]; the session options are those
    [session.Session.get_conf_options] brings. *)
Definition default_options (session_options : SessionOpts) : StoreOpts :=
  {| cinder_catalog_info := "volume:cinder:publicURL";
     cinder_endpoint_template := None;
     os_region_name := None;
     cinder_http_retries := 3;
     session_options := session_options |}.

(** [parse_uri] and [process_specs] one after the other on the same object. *)
Definition parse_then_process (check : pyval -> bool) (uri : string)
  : M StoreLocation unit :=
  let! _ := parse_uri check uri in
  process_specs.

Definition process_then_parse (check : pyval -> bool) (uri : string)
  : M StoreLocation unit :=
  let! _ := process_specs in
  parse_uri check uri.

(** A context whose [to_dict] lacks the key the example template names. *)
Definition keyless_context : Context :=
  {| to_dict := Return ∅;
     get_auth_plugin := Return (Plugin "token") |}.

(** * The driver with every exception counted in *)

(** What a call may raise once the exceptions that derive from
    [BaseException] alone are counted in: an error, as above, or a signal
    such as [KeyboardInterrupt], [SystemExit] or a timeout of the green
    thread library, given by the names of its class and of that class's
    bases below [BaseException], own class first, and its text. *)
Inductive thrown :=
| Error (e : exn)
| Signal (classes : list string) (text : string).

Definition thrown_mro (t : thrown) : list string :=
  match t with
  | Error e => mro e
  | Signal classes _ => (classes ++ ["BaseException"; "object"])%list
  end.

(** [isinstance(t, cls)] *)
Definition instance_of (t : thrown) (cls : string) : bool :=
  bool_decide (cls ∈ thrown_mro t).

(** An exception that an [except Exception] clause has caught is an error. *)
Definition caught (t : thrown) : exn :=
  match t with
  | Error e => e
  | Signal classes text => Foreign classes text
  end.

Inductive result (A : Type) :=
| Returned (a : A)
| Thrown (t : thrown).
Arguments Returned {A} a.
Arguments Thrown {A} t.

(** The methods of [Store] that [get_size] goes through, line for line as
    above, over calls that may raise signals too. *)
Module Wide.
Definition M (O A : Type) : Type := state O -> result A * state O.

Section Effects.
Context {O : Type}.

Definition ret {A} (a : A) : M O A := fun st => (Returned a, st).

Definition raise {A} (t : thrown) : M O A := fun st => (Thrown t, st).

Definition bind {A B} (c : M O A) (k : A -> M O B) : M O B :=
  fun st =>
    match c st with
    | (Returned a, st') => k a st'
    | (Thrown t, st') => (Thrown t, st')
    end.

Definition try_except {A} (body : M O A) (handler : thrown -> M O A) : M O A :=
  fun st =>
    match body st with
    | (Returned a, st') => (Returned a, st')
    | (Thrown t, st') => handler t st'
    end.

Definition call {A} (r : result A) : M O A := fun st => (r, st).

Definition getattr {A} (field : O -> A) : M O A :=
  fun st => (Returned (field (this st)), st).

Definition log (r : log_record) : M O unit :=
  fun st => (Returned tt, State (this st) (LOG st ++ [r])%list (wire st)).

Definition send (r : request) : M O unit :=
  fun st => (Returned tt, State (this st) (LOG st) (wire st ++ [r])%list).
End Effects.

Notation "'let?' x ':=' c 'in' k" := (bind c (fun x => k))
  (at level 10, x name, c at level 200, k at level 200).

Record Context := {
  to_dict : result (gmap string pyval);
  get_auth_plugin : result AuthPlugin
}.

Definition getattr_by_name (name : string) : M Store pyval :=
  fun st =>
    match other_attrs (this st) !! name with
    | Some v => (Returned v, st)
    | None => (Thrown (Error (AttributeError "Store" name)), st)
    end.

Definition _check_context (context : option Context) : M Store unit :=
  match context with
  | None =>
      let reason := "Cinder storage requires a context." in
      raise (Error (BadStoreConfiguration "cinder" reason))
  | Some _ => ret tt
  end.

Definition context_to_dict (context : option Context) : result (gmap string pyval) :=
  match context with
  | Some c => to_dict c
  | None => Thrown (Error (AttributeError "NoneType" "to_dict"))
  end.

Definition context_get_auth_plugin (context : option Context) : result AuthPlugin :=
  match context with
  | Some c => get_auth_plugin c
  | None => Thrown (Error (AttributeError "NoneType" "get_auth_plugin"))
  end.

Section Driver.
Variable str_mod : string -> gmap string pyval -> result string.
Variable volumes_get : CinderClient -> pyval -> result Volume.t.

Definition _get_cinderclient (context : option Context) : M Store CinderClient :=
  let? conf := getattr conf in
  let endpoint_override := cinder_endpoint_template (glance_store conf) in
  let? endpoint_override :=
    (if truthy endpoint_override then
       let? mapping := call (context_to_dict context) in
       let? endpoint := call (str_mod (default "" endpoint_override) mapping) in
       ret (Some endpoint)
     else ret endpoint_override) in
  let? auth_plugin := call (context_get_auth_plugin context) in
  let? session := getattr session in
  ret {| client_session := session;
         client_auth := auth_plugin;
         client_region_name := os_region_name (glance_store conf);
         client_retries := cinder_http_retries (glance_store conf) |}.

Definition client_volumes_get (client : CinderClient) (volume_id : pyval)
  : M Store Volume.t :=
  let? _ := send (VolumesGet client volume_id) in
  call (volumes_get client volume_id).

Definition get_size (location : Location) (context : option Context) : M Store Z :=
  let loc := store_location location in
  try_except
    (let? _ := _check_context context in
     let? client := _get_cinderclient context in
     let? volume := client_volumes_get client (volume_id loc) in
     ret (Volume.size volume * 1024 ^ 3))
    (fun t =>
       if instance_of t cinder_exception.NotFound then
         let? volume_id := getattr_by_name "volume_id" in
         let reason :=
           "Failed to get image size due to volume can not be found: "
           ++ py_str volume_id in
         let? _ := log (LogError reason) in
         raise (Error (NotFound reason))
       else if instance_of t ks_exceptions.EndpointNotFound then
         let reason := "Cinder endpoint could not be determined" in
         raise (Error (BadStoreConfiguration "cinder" reason))
       else if instance_of t "Exception" then
         let? _ :=
           log (LogException "Failed to get image size due to internal error: %s"
                  (caught t)) in
         ret 0
       else raise t).
End Driver.
End Wide.

(** The calls of the model of errors, among those that may raise signals. *)
Definition widen {A} (r : outcome A) : result A :=
  match r with
  | Return a => Returned a
  | Raise e => Thrown (Error e)
  end.

Definition widen_context (context : Context) : Wide.Context :=
  {| Wide.to_dict := widen (to_dict context);
     Wide.get_auth_plugin := widen (get_auth_plugin context) |}.

(** For the statement on what leaves [get_size]: an exception that one of
    the calls [get_size] makes can have raised. *)
Definition raised_by_a_call
  (str_mod : string -> gmap string pyval -> result string)
  (volumes_get : CinderClient -> pyval -> result Volume.t)
  (location : Location) (context : Wide.Context) (t : thrown) : Prop :=
  Wide.to_dict context = Thrown t \/
  (exists template mapping, str_mod template mapping = Thrown t) \/
  Wide.get_auth_plugin context = Thrown t \/
  (exists client, volumes_get client (volume_id (store_location location)) = Thrown t).

(** What the three [except] clauses of [get_size] make of an exception
    raised in the [try] block, from the state it was raised in. *)
Definition handled (t : thrown) (st : state Store) : result Z * state Store :=
  if instance_of t cinder_exception.NotFound then
    match other_attrs (this st) !! "volume_id" with
    | Some v =>
        let reason :=
          "Failed to get image size due to volume can not be found: "
          ++ py_str v in
        (Thrown (Error (NotFound reason)),
         State (this st) (LOG st ++ [LogError reason])%list (wire st))
    | None => (Thrown (Error (AttributeError "Store" "volume_id")), st)
    end
  else if instance_of t ks_exceptions.EndpointNotFound then
    (Thrown (Error (BadStoreConfiguration "cinder"
                      "Cinder endpoint could not be determined")), st)
  else if instance_of t "Exception" then
    (Returned 0,
     State (this st)
       (LOG st ++ [LogException "Failed to get image size due to internal error: %s"
                     (caught t)])%list
       (wire st))
  else (Thrown t, st).

(** A volume service interrupted from the keyboard. *)
Definition keyboard_interrupt : thrown := Signal ["KeyboardInterrupt"] "".

Definition interrupted : CinderClient -> pyval -> result Volume.t :=
  fun _ _ => Thrown keyboard_interrupt.

(** * Properties *)

(** ** Strings *)

Lemma append_cons (a : ascii) (p t : string) : String a p ++ t = String a (p ++ t).
Proof. reflexivity. Qed.

Lemma append_empty_l (s : string) : "" ++ s = s.
Proof. reflexivity. Qed.

Lemma append_empty_r (s : string) : s ++ "" = s.
Proof. induction s as [|a s IH]; [reflexivity|]. now rewrite append_cons, IH. Qed.

Lemma prefix_cons (a b : ascii) (p s : string) :
  String.prefix (String a p) (String b s)
  = if Ascii.ascii_dec a b then String.prefix p s else false.
Proof. reflexivity. Qed.

Lemma prefix_slice (p s : string) :
  String.prefix p s = true -> s = p ++ slice_from (String.length p) s.
Proof.
  revert s. induction p as [|a p IH]; intros s H.
  - reflexivity.
  - destruct s as [|b s]; [discriminate|].
    rewrite prefix_cons in H.
    destruct (Ascii.ascii_dec a b) as [->|]; [|discriminate].
    rewrite append_cons. simpl. f_equal. now apply IH.
Qed.

Lemma prefix_append (p t : string) : String.prefix p (p ++ t) = true.
Proof.
  induction p as [|a p IH]; [now destruct t|].
  rewrite append_cons, prefix_cons.
  destruct (Ascii.ascii_dec a a); congruence.
Qed.

Lemma slice_from_append (p t : string) : slice_from (String.length p) (p ++ t) = t.
Proof.
  induction p as [|a p IH]; [now destruct t|].
  rewrite append_cons. simpl. exact IH.
Qed.

Lemma startswith_cinder (uri : string) :
  startswith uri "cinder://" = true -> uri = "cinder://" ++ slice_from 9 uri.
Proof. intros H. exact (prefix_slice "cinder://" uri H). Qed.

Lemma str_split_cons (sep : ascii) (s : string) :
  exists field fields, str_split sep s = field :: fields.
Proof.
  induction s as [|c s [f [fs IH]]]; simpl; [now eauto|].
  destruct (Ascii.eqb c sep); [now eauto|]. rewrite IH. eauto.
Qed.

Lemma str_split_length (sep : ascii) (s : string) :
  List.length (str_split sep s) = S (str_count sep s).
Proof.
  induction s as [|c s IH]; simpl; [reflexivity|].
  destruct (Ascii.eqb c sep); simpl.
  - now rewrite IH.
  - destruct (str_split_cons sep s) as [f [fs E]]. rewrite E in *. simpl in *. exact IH.
Qed.

(** ** Exceptions *)

Lemma isinstance_Exception (e : exn) : isinstance e "Exception" = true.
Proof.
  unfold isinstance, mro. apply bool_decide_eq_true.
  apply elem_of_app. right. apply list_elem_of_here.
Qed.

Lemma hex_group_spec (n : nat) (s r : string) :
  utils.hex_group n s = Some r <-> exists g, s = g ++ r /\ hex_string n g.
Proof.
  revert s. induction n as [|n IH]; intros s; simpl.
  - split.
    + intros [= ->]. exists EmptyString. repeat split. constructor.
    + intros [g [-> [Hl _]]]. destruct g; [reflexivity|discriminate].
  - destruct s as [|c s].
    + split; [discriminate|]. intros [g [E [Hl _]]].
      destruct g; discriminate.
    + destruct (utils.is_hex_digit c) eqn:Hc.
      * rewrite IH. split.
        -- intros [g [-> [Hl Hh]]]. exists (String c g). repeat split.
           ++ simpl. now rewrite Hl.
           ++ simpl. now constructor.
        -- intros [g [E [Hl Hh]]]. destruct g as [|c' g]; [discriminate|].
           rewrite append_cons in E. simpl in Hl, Hh.
           injection E as -> ->. injection Hl as Hl.
           inversion Hh; subst. exists g. now repeat split.
      * split; [discriminate|]. intros [g [E [Hl Hh]]].
        destruct g as [|c' g]; [discriminate|].
        rewrite append_cons in E. simpl in Hh.
        injection E as -> ->. inversion Hh; subst. congruence.
Qed.

Lemma hex_group_append (n : nat) (g r : string) :
  hex_string n g -> utils.hex_group n (g ++ r) = Some r.
Proof. intros H. apply hex_group_spec. now exists g. Qed.

Lemma is_uuid_like_shape (s : string) :
  utils.is_uuid_like (PyStr s) = true <-> uuid_shape s.
Proof.
  unfold utils.is_uuid_like, utils.hex_groups. split.
  - intros H.
    destruct (utils.hex_group 8 s) as [[|h1 r1]|] eqn:E1; try discriminate.
    destruct (Ascii.ascii_dec h1 "-") as [->|N]; [|destruct h1 as [[] [] [] [] [] [] [] []]; try discriminate; now elim N].
    destruct (utils.hex_group 4 r1) as [[|h2 r2]|] eqn:E2; try discriminate.
    destruct (Ascii.ascii_dec h2 "-") as [->|N]; [|destruct h2 as [[] [] [] [] [] [] [] []]; try discriminate; now elim N].
    destruct (utils.hex_group 4 r2) as [[|h3 r3]|] eqn:E3; try discriminate.
    destruct (Ascii.ascii_dec h3 "-") as [->|N]; [|destruct h3 as [[] [] [] [] [] [] [] []]; try discriminate; now elim N].
    destruct (utils.hex_group 4 r3) as [[|h4 r4]|] eqn:E4; try discriminate.
    destruct (Ascii.ascii_dec h4 "-") as [->|N]; [|destruct h4 as [[] [] [] [] [] [] [] []]; try discriminate; now elim N].
    destruct (utils.hex_group 12 r4) as [[|h5 r5]|] eqn:E5; try discriminate.
    apply hex_group_spec in E1 as [a [-> Ha]], E2 as [b [-> Hb]],
      E3 as [c [-> Hc]], E4 as [d [-> Hd]], E5 as [e [-> He]].
    rewrite append_empty_r.
    exists a, b, c, d, e. split; [reflexivity|tauto].
  - intros [a [b [c [d [e [-> [Ha [Hb [Hc [Hd He]]]]]]]]]].
    rewrite !append_cons, !append_empty_l.
    rewrite (hex_group_append 8 a _ Ha), (hex_group_append 4 b _ Hb),
      (hex_group_append 4 c _ Hc), (hex_group_append 4 d _ Hd).
    rewrite <- (append_empty_r e).
    now rewrite (hex_group_append 12 e _ He).
Qed.

Lemma is_hex_digit_upper (c : ascii) :
  utils.is_hex_digit (upper_ascii c) = utils.is_hex_digit c.
Proof. destruct c as [[] [] [] [] [] [] [] []]; reflexivity. Qed.

Lemma upper_ascii_hyphen (c : ascii) :
  Ascii.eqb (upper_ascii c) "-" = Ascii.eqb c "-".
Proof. destruct c as [[] [] [] [] [] [] [] []]; reflexivity. Qed.

Lemma hex_group_upper (n : nat) (s : string) :
  utils.hex_group n (upper s) = option_map upper (utils.hex_group n s).
Proof.
  revert s. induction n as [|n IH]; intros s; [reflexivity|].
  destruct s as [|c s]; [reflexivity|]. simpl.
  rewrite is_hex_digit_upper. destruct (utils.is_hex_digit c); [apply IH|reflexivity].
Qed.

Lemma hex_groups_cons (n m : nat) (rest : list nat) (s : string) :
  utils.hex_groups (n :: m :: rest) s
  = match utils.hex_group n s with
    | Some (String c s') => Ascii.eqb c "-" && utils.hex_groups (m :: rest) s'
    | _ => false
    end.
Proof.
  change (utils.hex_groups (n :: m :: rest) s)
    with (match utils.hex_group n s with
          | Some (String "-" s') => utils.hex_groups (m :: rest) s'
          | _ => false
          end).
  destruct (utils.hex_group n s) as [[|c s']|]; try reflexivity.
  destruct c as [[] [] [] [] [] [] [] []]; reflexivity.
Qed.

Lemma hex_groups_upper (groups : list nat) (s : string) :
  utils.hex_groups groups (upper s) = utils.hex_groups groups s.
Proof.
  revert s. induction groups as [|n groups IH]; intros s; [reflexivity|].
  destruct groups as [|m rest].
  - simpl. rewrite hex_group_upper.
    now destruct (utils.hex_group n s) as [[|c s']|].
  - rewrite !hex_groups_cons, hex_group_upper.
    destruct (utils.hex_group n s) as [[|c s']|]; try reflexivity.
    cbn [option_map upper]. now rewrite upper_ascii_hyphen, IH.
Qed.

Lemma is_uuid_like_case_insensitive (s : string) :
  utils.is_uuid_like (PyStr (upper s)) = utils.is_uuid_like (PyStr s).
Proof. apply hex_groups_upper. Qed.

(** ** The location parser *)

Section ParseUriFacts.
Variable is_uuid_like : pyval -> bool.

(** The three ways [parse_uri] ends. *)
Lemma parse_uri_eq (uri : string) (st : state StoreLocation) :
  parse_uri is_uuid_like uri st =
  if startswith uri "cinder://" then
    if is_uuid_like (PyStr (slice_from 9 uri)) then
      (Return tt,
       State {| specs := specs (this st); scheme := PyStr "cinder";
                volume_id := PyStr (slice_from 9 uri) |} (LOG st) (wire st))
    else
      (Raise (BadStoreUri "URI contains invalid volume ID"),
       State {| specs := specs (this st); scheme := PyStr "cinder";
                volume_id := PyStr (slice_from 9 uri) |}
         (LOG st ++ [LogInfo "URI contains invalid volume ID"]) (wire st))
  else (Raise (BadStoreUri "URI must start with 'cinder://'"),
        State (this st) (LOG st ++ [LogInfo "URI must start with 'cinder://'"]) (wire st)).
Proof.
  unfold parse_uri. destruct (startswith uri "cinder://"); cbn [negb].
  - unfold bind, setattr, getattr. cbn [this volume_id set_volume_id].
    destruct (is_uuid_like (PyStr (slice_from 9 uri))); reflexivity.
  - reflexivity.
Qed.

Lemma parse_uri_success (uri : string) (st st' : state StoreLocation) :
  parse_uri is_uuid_like uri st = (Return tt, st') ->
  startswith uri "cinder://" = true /\
  is_uuid_like (PyStr (slice_from 9 uri)) = true /\
  st' = State {| specs := specs (this st); scheme := PyStr "cinder";
                 volume_id := PyStr (slice_from 9 uri) |} (LOG st) (wire st).
Proof.
  rewrite parse_uri_eq.
  destruct (startswith uri "cinder://"); [|discriminate].
  destruct (is_uuid_like (PyStr (slice_from 9 uri))); [|discriminate].
  intros [= <-]. auto.
Qed.

Lemma startswith_get_uri (self : StoreLocation) :
  startswith (get_uri self) "cinder://" = true.
Proof. apply prefix_append. Qed.

Lemma slice_get_uri (self : StoreLocation) :
  slice_from 9 (get_uri self) = py_str (volume_id self).
Proof. exact (slice_from_append "cinder://" (py_str (volume_id self))). Qed.

Lemma parse_uri_get_uri (uri : string) (st st' : state StoreLocation) :
  parse_uri is_uuid_like uri st = (Return tt, st') ->
  forall st1,
    parse_uri is_uuid_like (get_uri (this st')) st1
    = (Return tt,
       State {| specs := specs (this st1); scheme := scheme (this st');
                volume_id := volume_id (this st') |} (LOG st1) (wire st1)).
Proof.
  intros H st1. apply parse_uri_success in H as (_ & Hid & ->).
  rewrite parse_uri_eq, startswith_get_uri, slice_get_uri.
  cbn [this volume_id scheme py_str]. now rewrite Hid.
Qed.
End ParseUriFacts.

(** C6: [parse_uri] rejects with the "must start with" variant exactly the
    strings that lack the prefix [cinder://], and then the result does not
    depend on the UUID check at all; with the prefix, the remainder is the
    volume id verbatim, the "invalid volume ID" variant is raised exactly
    when the remainder is not UUID-like (the 8-4-4-4-12 hexadecimal shape, in
    either case), and otherwise the parse succeeds with scheme [cinder] and
    that volume id. *)
Theorem parse_uri_contract (uri : string) (st : state StoreLocation) :
  let result := fst (parse_uri utils.is_uuid_like uri st) in
  let rest := slice_from 9 uri in
  (result = Raise (BadStoreUri "URI must start with 'cinder://'")
   <-> startswith uri "cinder://" = false) /\
  (startswith uri "cinder://" = false ->
   forall check, parse_uri check uri st = parse_uri utils.is_uuid_like uri st) /\
  (startswith uri "cinder://" = true ->
   uri = "cinder://" ++ rest /\
   (result = Raise (BadStoreUri "URI contains invalid volume ID")
    <-> ~ uuid_shape rest) /\
   (uuid_shape rest ->
    parse_uri utils.is_uuid_like uri st
    = (Return tt,
       State {| specs := specs (this st); scheme := PyStr "cinder";
                volume_id := PyStr rest |} (LOG st) (wire st)))) /\
  (uuid_shape rest <-> uuid_shape (upper rest)).
Proof.
  cbv zeta.
  pose proof (is_uuid_like_shape (slice_from 9 uri)) as Hshape.
  pose proof (is_uuid_like_case_insensitive (slice_from 9 uri)) as Hcase.
  pose proof (is_uuid_like_shape (upper (slice_from 9 uri))) as Hupper.
  pose proof (startswith_cinder uri) as Hprefix.
  assert (forall check, parse_uri check uri st = parse_uri check uri st) as Hany
    by reflexivity.
  setoid_rewrite parse_uri_eq in Hany at 2.
  rewrite (Hany utils.is_uuid_like).
  destruct (startswith uri "cinder://") eqn:Hp.
  - destruct (utils.is_uuid_like (PyStr (slice_from 9 uri))) eqn:Hid; cbn [fst].
    + repeat split; try discriminate; tauto.
    + assert (~ uuid_shape (slice_from 9 uri)) as Hn
        by (intros Hs; apply Hshape in Hs; discriminate).
      assert (~ uuid_shape (upper (slice_from 9 uri))) as Hm
        by (intros Hs; apply Hupper in Hs; congruence).
      repeat split; try discriminate; tauto.
  - cbn [fst]. repeat split; try discriminate.
    + intros _ check. apply Hany.
    + intros Hs. apply Hupper. rewrite Hcase. tauto.
    + intros Hs. apply Hshape. rewrite <- Hcase. tauto.
Qed.

(** C7: a location produced by a successful parse renders to a URI that
    parses again, to a location with the same scheme and volume id (parsed
    into the same object, it leaves it as it is); and the concrete URI
    [cinder://2aa1d1c2-5f0c-4e8f-8e0d-111111111111] parses to scheme
    [cinder] with that volume id and renders back to the same string. *)
Theorem parse_render_round_trip :
  (forall (check : pyval -> bool) (uri : string) (st st' : state StoreLocation),
      parse_uri check uri st = (Return tt, st') ->
      parse_uri check (get_uri (this st')) st' = (Return tt, st') /\
      forall st1,
        exists st1',
          parse_uri check (get_uri (this st')) st1 = (Return tt, st1') /\
          scheme (this st1') = scheme (this st') /\
          volume_id (this st1') = volume_id (this st')) /\
  (forall (self : StoreLocation) (records : list log_record) (sent : list request),
      let L := {| specs := specs self; scheme := PyStr "cinder";
                  volume_id := PyStr "2aa1d1c2-5f0c-4e8f-8e0d-111111111111" |} in
      parse_uri utils.is_uuid_like "cinder://2aa1d1c2-5f0c-4e8f-8e0d-111111111111"
        (State self records sent)
      = (Return tt, State L records sent) /\
      get_uri L = "cinder://2aa1d1c2-5f0c-4e8f-8e0d-111111111111").
Proof.
  split.
  - intros check uri st st' H. split.
    + rewrite (parse_uri_get_uri check uri st st' H).
      now destruct st' as [[] ? ?].
    + intros st1. eexists. split; [exact (parse_uri_get_uri check uri st st' H st1)|].
      now split.
  - intros self records sent. split; [|reflexivity].
    rewrite parse_uri_eq. reflexivity.
Qed.

(** A successful parse and the re-parse of its rendering, on the concrete
    URI of the specification. *)
Lemma parse_render_round_trip_witness :
  parse_uri utils.is_uuid_like "cinder://2aa1d1c2-5f0c-4e8f-8e0d-111111111111"
    (State blank_location [] [])
  = (Return tt, State parsed_location [] []) /\
  parse_uri utils.is_uuid_like (get_uri parsed_location) (State parsed_location [] [])
  = (Return tt, State parsed_location [] []).
Proof.
  split; [reflexivity|].
  apply (proj1 parse_render_round_trip utils.is_uuid_like
           "cinder://2aa1d1c2-5f0c-4e8f-8e0d-111111111111"
           (State blank_location [] []) (State parsed_location [] [])).
  reflexivity.
Defined.

(** C10: [get_uri] shows the stored volume id after the fixed prefix: a
    location whose id is the string [id] renders as [cinder://] followed by
    [id] itself, one without an id as [cinder://None], and two locations
    with the same id render alike whatever their schemes.  [process_specs]
    never fails: it keeps whatever scheme the mapping gives ([cinder] when
    it gives none) and the volume id it gives ([None] when it gives none),
    and the location it builds renders from that volume id alone. *)
Theorem get_uri_ignores_scheme :
  (forall (self : StoreLocation) (id : string),
      volume_id self = PyStr id -> get_uri self = "cinder://" ++ id) /\
  (forall self : StoreLocation,
      volume_id self = PyNone -> get_uri self = "cinder://None") /\
  (forall self1 self2 : StoreLocation,
      volume_id self1 = volume_id self2 -> get_uri self1 = get_uri self2) /\
  (forall (self : StoreLocation) (other : pyval),
      volume_id (set_scheme other self) = volume_id self /\
      scheme (set_scheme other self) = other /\
      get_uri (set_scheme other self) = get_uri self) /\
  (forall st : state StoreLocation,
      let mapping := specs (this st) in
      exists built,
        process_specs st = (Return tt, State built (LOG st) (wire st)) /\
        specs built = mapping /\
        (forall v, mapping !! "scheme" = Some v -> scheme built = v) /\
        (mapping !! "scheme" = None -> scheme built = PyStr "cinder") /\
        (forall id,
            mapping !! "volume_id" = Some (PyStr id) ->
            volume_id built = PyStr id /\ get_uri built = "cinder://" ++ id) /\
        (mapping !! "volume_id" = Some PyNone ->
         volume_id built = PyNone /\ get_uri built = "cinder://None") /\
        (mapping !! "volume_id" = None ->
         volume_id built = PyNone /\ get_uri built = "cinder://None")).
Proof.
  split; [|split; [|split; [|split]]].
  - intros self id H. unfold get_uri. now rewrite H.
  - intros self H. unfold get_uri. now rewrite H.
  - intros self1 self2 H. unfold get_uri. now rewrite H.
  - intros self other. repeat split.
  - intros st. cbv zeta.
    exists {| specs := specs (this st);
              scheme := dict_get (specs (this st)) "scheme" (PyStr "cinder");
              volume_id := dict_get (specs (this st)) "volume_id" PyNone |}.
    split; [reflexivity|]. split; [reflexivity|].
    unfold get_uri, dict_get. cbn [scheme volume_id].
    repeat split; intros; repeat match goal with H : _ !! _ = _ |- _ => rewrite H end;
      reflexivity.
Qed.

(** ** The driver *)

Section DriverFacts.
Variable str_mod : string -> gmap string pyval -> outcome string.
Variable volumes_get : CinderClient -> pyval -> outcome Volume.t.

Lemma get_cinderclient_eq (context : option Context) (st : state Store) :
  _get_cinderclient str_mod context st =
  match interpolation str_mod (this st) context with
  | Return _ =>
      match context_get_auth_plugin context with
      | Return auth => (Return (built_client (this st) auth), st)
      | Raise e => (Raise e, st)
      end
  | Raise e => (Raise e, st)
  end.
Proof.
  unfold _get_cinderclient, interpolation, bind, getattr, call, ret.
  destruct (truthy _).
  - destruct (context_to_dict context); [|reflexivity].
    destruct (str_mod _ _); [|reflexivity].
    destruct (context_get_auth_plugin context); reflexivity.
  - destruct (context_get_auth_plugin context); reflexivity.
Qed.

Lemma get_cinderclient_built (context : option Context) (st : state Store)
  (client : CinderClient) :
  fst (_get_cinderclient str_mod context st) = Return client ->
  exists ctx auth,
    context = Some ctx /\ get_auth_plugin ctx = Return auth /\
    client = built_client (this st) auth /\
    _get_cinderclient str_mod context st = (Return client, st).
Proof.
  rewrite get_cinderclient_eq.
  destruct (interpolation str_mod (this st) context); [|discriminate].
  destruct context as [ctx|]; [|discriminate]. simpl.
  destruct (get_auth_plugin ctx) as [auth|] eqn:Hauth; [|discriminate].
  intros [= <-]. now exists ctx, auth.
Qed.

(** [get_size] once the client is built: what the one request gives decides
    the rest. *)
Lemma get_size_with_client (location : Location) (context : option Context)
  (st : state Store) (client : CinderClient) :
  fst (_get_cinderclient str_mod context st) = Return client ->
  get_size str_mod volumes_get location context st =
  let id := volume_id (store_location location) in
  let sent := (wire st ++ [VolumesGet client id])%list in
  match volumes_get client id with
  | Return volume =>
      (Return (Volume.size volume * 1024 ^ 3), State (this st) (LOG st) sent)
  | Raise e =>
      if isinstance e cinder_exception.NotFound then
        match other_attrs (this st) !! "volume_id" with
        | Some v =>
            let reason :=
              "Failed to get image size due to volume can not be found: "
              ++ py_str v in
            (Raise (NotFound reason),
             State (this st) (LOG st ++ [LogError reason])%list sent)
        | None =>
            (Raise (AttributeError "Store" "volume_id"),
             State (this st) (LOG st) sent)
        end
      else if isinstance e ks_exceptions.EndpointNotFound then
        (Raise (BadStoreConfiguration "cinder" "Cinder endpoint could not be determined"),
         State (this st) (LOG st) sent)
      else
        (Return 0,
         State (this st)
           (LOG st ++ [LogException "Failed to get image size due to internal error: %s" e])%list
           sent)
  end.
Proof.
  intros H. apply get_cinderclient_built in H as (ctx & auth & -> & _ & _ & H).
  unfold get_size, try_except, bind at 1. cbn [_check_context ret].
  unfold bind at 1. rewrite H.
  unfold client_volumes_get, bind, send, call. cbn [this LOG wire].
  destruct (volumes_get client _) as [volume|e]; [reflexivity|].
  destruct (isinstance e cinder_exception.NotFound).
  - unfold getattr_by_name. cbn [this].
    destruct (other_attrs (this st) !! "volume_id"); reflexivity.
  - destruct (isinstance e ks_exceptions.EndpointNotFound); [reflexivity|].
    rewrite isinstance_Exception. reflexivity.
Qed.
End DriverFacts.

(** ** get_size *)

Lemma check_context_none (st : state Store) :
  _check_context None st
  = (Raise (BadStoreConfiguration "cinder" "Cinder storage requires a context."), st).
Proof. reflexivity. Qed.

Lemma check_context_some (ctx : Context) (st : state Store) :
  _check_context (Some ctx) st = (Return tt, st).
Proof. reflexivity. Qed.

(** Whatever happens before and during the request, an exception that
    leaves [get_size] comes from one of the first two handlers. *)
Lemma get_size_raises
  (str_mod : string -> gmap string pyval -> outcome string)
  (volumes_get : CinderClient -> pyval -> outcome Volume.t)
  (location : Location) (context : option Context) (st st' : state Store)
  (e : exn) :
  get_size str_mod volumes_get location context st = (Raise e, st') ->
  e = BadStoreConfiguration "cinder" "Cinder endpoint could not be determined" \/
  (e = AttributeError "Store" "volume_id" /\
   other_attrs (this st') !! "volume_id" = None) \/
  (exists v,
      other_attrs (this st') !! "volume_id" = Some v /\
      e = NotFound ("Failed to get image size due to volume can not be found: "
                    ++ py_str v)).
Proof.
  unfold get_size, try_except.
  match goal with |- context [bind ?c ?k st] => destruct (bind c k st) as [[z|e0] st0] end;
    [discriminate|].
  destruct (isinstance e0 cinder_exception.NotFound).
  - unfold bind, getattr_by_name.
    destruct (other_attrs (this st0) !! "volume_id") as [v|] eqn:Hattr.
    + cbn [log raise]. intros [= <- <-]. right. right. now exists v.
    + intros [= <- <-]. right. left. now split.
  - destruct (isinstance e0 ks_exceptions.EndpointNotFound).
    + intros [= <- <-]. now left.
    + rewrite isinstance_Exception. discriminate.
Qed.

(** C1: with a null context [get_size] sends nothing to the volume service,
    but the [BadStoreConfiguration] that [_check_context] raises does not
    reach the caller: the catch-all clause logs it and [get_size] returns 0. *)
Theorem get_size_null_context
  (str_mod : string -> gmap string pyval -> outcome string)
  (volumes_get : CinderClient -> pyval -> outcome Volume.t)
  (location : Location) (st : state Store) :
  get_size str_mod volumes_get location None st
  = (Return 0,
     State (this st)
       (LOG st ++ [LogException "Failed to get image size due to internal error: %s"
                     (BadStoreConfiguration "cinder" "Cinder storage requires a context.")])
       (wire st)).
Proof. reflexivity. Qed.

(** C2: when the volume service reports that the volume does not exist, the
    handler reads [self.volume_id], which a driver instance does not have:
    [get_size] raises [AttributeError], not the caller-facing [NotFound], and
    logs nothing. *)
Theorem get_size_not_found
  (str_mod : string -> gmap string pyval -> outcome string)
  (volumes_get : CinderClient -> pyval -> outcome Volume.t)
  (location : Location) (context : option Context) (st : state Store)
  (client : CinderClient) (e : exn) :
  fst (_get_cinderclient str_mod context st) = Return client ->
  volumes_get client (volume_id (store_location location)) = Raise e ->
  isinstance e cinder_exception.NotFound = true ->
  other_attrs (this st) !! "volume_id" = None ->
  get_size str_mod volumes_get location context st
  = (Raise (AttributeError "Store" "volume_id"),
     State (this st) (LOG st)
       (wire st ++ [VolumesGet client (volume_id (store_location location))])) /\
  isinstance (AttributeError "Store" "volume_id") exceptions.NotFound = false.
Proof.
  intros Hclient Hget Hnf Hattr.
  rewrite (get_size_with_client _ _ _ _ _ _ Hclient). cbv zeta.
  rewrite Hget, Hnf, Hattr. split; reflexivity.
Qed.

Lemma get_size_not_found_witness :
  get_size percent_format (failing volume_not_found) example_location
    (Some example_context) (State (example_store None) [] [])
  = (Raise (AttributeError "Store" "volume_id"),
     State (example_store None) []
       [VolumesGet example_client (PyStr "2aa1d1c2-5f0c-4e8f-8e0d-111111111111")]) /\
  isinstance (AttributeError "Store" "volume_id") exceptions.NotFound = false.
Proof.
  apply (get_size_not_found percent_format (failing volume_not_found)
           example_location (Some example_context)
           (State (example_store None) [] []) example_client volume_not_found);
    reflexivity.
Defined.

(** C3: an exception that is neither [NotFound] nor [BadStoreConfiguration]
    crosses [get_size]: on the deployment above, a volume the service does
    not know makes it raise [AttributeError]. *)
Theorem get_size_leaks_attribute_error :
  let crossing := AttributeError "Store" "volume_id" in
  fst (get_size percent_format (failing volume_not_found) example_location
         (Some example_context) (State (example_store None) [] []))
  = Raise crossing /\
  isinstance crossing exceptions.NotFound = false /\
  isinstance crossing exceptions.BadStoreConfiguration = false.
Proof. cbv zeta. repeat split; vm_compute; reflexivity. Qed.

(** C4: a failure of the request that is neither a volume-not-found nor an
    endpoint-resolution failure is logged and [get_size] returns 0; an
    endpoint-resolution failure makes it raise [BadStoreConfiguration]. *)
Theorem get_size_degrades_to_zero
  (str_mod : string -> gmap string pyval -> outcome string)
  (volumes_get : CinderClient -> pyval -> outcome Volume.t)
  (location : Location) (context : option Context) (st : state Store)
  (client : CinderClient) (e : exn) :
  fst (_get_cinderclient str_mod context st) = Return client ->
  volumes_get client (volume_id (store_location location)) = Raise e ->
  isinstance e cinder_exception.NotFound = false ->
  let sent := (wire st ++ [VolumesGet client (volume_id (store_location location))])%list in
  (isinstance e ks_exceptions.EndpointNotFound = false ->
   get_size str_mod volumes_get location context st
   = (Return 0,
      State (this st)
        (LOG st ++ [LogException "Failed to get image size due to internal error: %s" e])
        sent)) /\
  (isinstance e ks_exceptions.EndpointNotFound = true ->
   get_size str_mod volumes_get location context st
   = (Raise (BadStoreConfiguration "cinder" "Cinder endpoint could not be determined"),
      State (this st) (LOG st) sent) /\
   isinstance (BadStoreConfiguration "cinder" "Cinder endpoint could not be determined")
     exceptions.BadStoreConfiguration = true).
Proof.
  intros Hclient Hget Hnf sent.
  rewrite (get_size_with_client _ _ _ _ _ _ Hclient). cbv zeta.
  rewrite Hget, Hnf. split; intros ->; [reflexivity|]. split; reflexivity.
Qed.

Lemma get_size_degrades_to_zero_witness :
  get_size percent_format (failing connection_refused) example_location
    (Some example_context) (State (example_store None) [] [])
  = (Return 0,
     State (example_store None)
       [LogException "Failed to get image size due to internal error: %s" connection_refused]
       [VolumesGet example_client (PyStr "2aa1d1c2-5f0c-4e8f-8e0d-111111111111")]) /\
  get_size percent_format (failing endpoint_not_found) example_location
    (Some example_context) (State (example_store None) [] [])
  = (Raise (BadStoreConfiguration "cinder" "Cinder endpoint could not be determined"),
     State (example_store None) []
       [VolumesGet example_client (PyStr "2aa1d1c2-5f0c-4e8f-8e0d-111111111111")]).
Proof.
  split.
  - apply (get_size_degrades_to_zero percent_format (failing connection_refused)
             example_location (Some example_context)
             (State (example_store None) [] []) example_client connection_refused);
      reflexivity.
  - apply (get_size_degrades_to_zero percent_format (failing endpoint_not_found)
             example_location (Some example_context)
             (State (example_store None) [] []) example_client endpoint_not_found);
      reflexivity.
Defined.

(** C8: when the volume's metadata is fetched, [get_size] returns the
    reported size in gigabytes times [1024^3]; a reported 5 gives
    5368709120. *)
Theorem get_size_bytes
  (str_mod : string -> gmap string pyval -> outcome string)
  (volumes_get : CinderClient -> pyval -> outcome Volume.t)
  (location : Location) (context : option Context) (st : state Store)
  (client : CinderClient) (volume : Volume.t) :
  fst (_get_cinderclient str_mod context st) = Return client ->
  volumes_get client (volume_id (store_location location)) = Return volume ->
  get_size str_mod volumes_get location context st
  = (Return (Volume.size volume * 1024 ^ 3),
     State (this st) (LOG st)
       (wire st ++ [VolumesGet client (volume_id (store_location location))])) /\
  (Volume.size volume = 5 ->
   fst (get_size str_mod volumes_get location context st) = Return 5368709120).
Proof.
  intros Hclient Hget.
  rewrite (get_size_with_client _ _ _ _ _ _ Hclient). cbv zeta.
  rewrite Hget. split; [reflexivity|]. intros ->. reflexivity.
Qed.

Lemma get_size_bytes_witness :
  get_size percent_format (reporting 5) example_location
    (Some example_context) (State (example_store None) [] [])
  = (Return 5368709120,
     State (example_store None) []
       [VolumesGet example_client (PyStr "2aa1d1c2-5f0c-4e8f-8e0d-111111111111")]).
Proof.
  apply (get_size_bytes percent_format (reporting 5) example_location
           (Some example_context) (State (example_store None) [] [])
           example_client {| Volume.size := 5 |});
    reflexivity.
Defined.

(** ** _get_cinderclient *)

(** C5: the client [_get_cinderclient] builds is made of the session, the
    plugin of the context, the region name and the retry count only: the
    interpolated endpoint is not given to it, nor are the service type, the
    service name and the endpoint type, and the same client is built when no
    template is configured and the catalog fields are any others. *)
Theorem get_cinderclient_drops_endpoint
  (str_mod : string -> gmap string pyval -> outcome string)
  (context : option Context) (self : Store)
  (records : list log_record) (sent : list request) (client : CinderClient) :
  fst (_get_cinderclient str_mod context (State self records sent)) = Return client ->
  (exists auth,
      context_get_auth_plugin context = Return auth /\
      client = {| client_session := session self;
                  client_auth := auth;
                  client_region_name := os_region_name (glance_store (conf self));
                  client_retries := cinder_http_retries (glance_store (conf self)) |}) /\
  (forall service_type service_name endpoint_type : string,
      _get_cinderclient str_mod context
        (State (reconfigured None service_type service_name endpoint_type self)
           records sent)
      = (Return client,
         State (reconfigured None service_type service_name endpoint_type self)
           records sent)).
Proof.
  intros H.
  apply get_cinderclient_built in H as (ctx & auth & -> & Hauth & -> & _).
  split; [now exists auth|].
  intros a b c. rewrite get_cinderclient_eq.
  cbn [interpolation reconfigured this conf glance_store cinder_endpoint_template truthy
       context_get_auth_plugin].
  now rewrite Hauth.
Qed.

Lemma get_cinderclient_drops_endpoint_witness :
  percent_format example_template {[ "project_id" := PyStr "7c1f" ]}
  = Return "http://localhost:8776/v1/7c1f" /\
  _get_cinderclient percent_format (Some example_context)
    (State (example_store (Some example_template)) [] [])
  = (Return example_client, State (example_store (Some example_template)) [] []) /\
  _get_cinderclient percent_format (Some example_context)
    (State (reconfigured None "compute" "nova" "internalURL"
              (example_store (Some example_template))) [] [])
  = (Return example_client,
     State (reconfigured None "compute" "nova" "internalURL"
              (example_store (Some example_template))) [] []).
Proof.
  split; [reflexivity|]. split; [reflexivity|].
  apply (get_cinderclient_drops_endpoint percent_format (Some example_context)
           (example_store (Some example_template)) [] [] example_client).
  reflexivity.
Defined.

(** ** __init__ *)

Lemma init_example (template : option string) :
  __init__ ∅ (example_conf template "volume:cinder:publicURL")
  = Return (example_store template).
Proof. reflexivity. Qed.

(** C9, as stated, fails on the catalog-info string [volume:cinder]: it has
    two fields, and construction fails with an exception that is not a
    [BadStoreConfiguration]. *)
Lemma init_two_fields_counterexample :
  ~ (List.length (str_split ":" "volume:cinder") <> 3%nat ->
     exists e,
       __init__ ∅ (example_conf None "volume:cinder") = Raise e /\
       isinstance e exceptions.BadStoreConfiguration = true).
Proof.
  intros H. destruct H as [e [He Hi]]; [discriminate|].
  injection He as <-. discriminate.
Qed.

(** C9, amended: the catalog-info string splits on [:] into one field more
    than it has colons; unless that makes three fields, construction fails
    with the [ValueError] of the unpacking, which is not a
    [BadStoreConfiguration], and produces no adapter; with three fields it
    succeeds and they become the service type, the service name and the
    endpoint type, in that order. *)
Theorem init_catalog_info (other : gmap string pyval) (conf : Conf) :
  let catalog_info := cinder_catalog_info (glance_store conf) in
  let info := str_split ":" catalog_info in
  List.length info = S (str_count ":" catalog_info) /\
  (List.length info <> 3%nat ->
   exists message,
     __init__ other conf = Raise (ValueError message) /\
     isinstance (ValueError message) exceptions.BadStoreConfiguration = false) /\
  (List.length info = 3%nat ->
   exists a b c,
     info = [a; b; c] /\
     __init__ other conf
     = Return {| conf := conf;
                 session := load_from_conf_options conf "glance_store";
                 service_type := a; service_name := b; endpoint_type := c;
                 other_attrs := other |}).
Proof.
  cbv zeta. split; [apply str_split_length|].
  unfold __init__.
  destruct (str_split_cons ":" (cinder_catalog_info (glance_store conf)))
    as [a [rest E]].
  rewrite E. destruct rest as [|b [|c [|d rest]]]; cbn [List.length]; split;
    try (intros H; now elim H); try discriminate; intros _; eauto.
Qed.

(** * Further properties of the module *)

(** ** Splitting and joining *)

Lemma str_join_cons (sep : ascii) (field next : string) (rest : list string) :
  str_join sep (field :: next :: rest)
  = field ++ String sep (str_join sep (next :: rest)).
Proof. reflexivity. Qed.

Lemma str_join_split (sep : ascii) (s : string) : str_join sep (str_split sep s) = s.
Proof.
  induction s as [|c s IH]; [reflexivity|]. simpl.
  destruct (str_split_cons sep s) as [f [fs E]]. rewrite E in *.
  destruct (Ascii.eqb c sep) eqn:Hc.
  - apply Ascii.eqb_eq in Hc as ->.
    rewrite str_join_cons, append_empty_l. now rewrite IH.
  - destruct fs as [|g fs].
    + simpl in *. now rewrite IH.
    + rewrite str_join_cons in *. rewrite append_cons. now rewrite IH.
Qed.

Lemma str_split_fields (sep : ascii) (s : string) :
  Forall (fun field => str_count sep field = O) (str_split sep s).
Proof.
  induction s as [|c s IH]; simpl; [now repeat constructor|].
  destruct (Ascii.eqb c sep) eqn:Hc; [now constructor|].
  destruct (str_split sep s) as [|f fs]; [now repeat constructor; simpl; rewrite Hc|].
  inversion IH; subst. constructor; [|assumption]. simpl. now rewrite Hc.
Qed.

(** ** __init__ *)

(** X1: construction succeeds exactly when the catalog-info string has two
    colons; the adapter then keeps the configuration it was given, a session
    loaded from the [glance_store] group and what the base class left, and
    its three fields hold no colon and rejoin with colons to the configured
    string. *)
Theorem init_two_colons (other : gmap string pyval) (config : Conf) :
  let catalog_info := cinder_catalog_info (glance_store config) in
  ((exists store, __init__ other config = Return store)
   <-> str_count ":" catalog_info = 2%nat) /\
  (forall store,
      __init__ other config = Return store ->
      catalog_info
      = service_type store ++ ":" ++ service_name store ++ ":" ++ endpoint_type store /\
      str_count ":" (service_type store) = O /\
      str_count ":" (service_name store) = O /\
      str_count ":" (endpoint_type store) = O /\
      conf store = config /\
      session store = load_from_conf_options config "glance_store" /\
      other_attrs store = other).
Proof.
  cbv zeta.
  pose proof (str_split_length ":" (cinder_catalog_info (glance_store config))) as Hlen.
  pose proof (str_join_split ":" (cinder_catalog_info (glance_store config))) as Hjoin.
  pose proof (str_split_fields ":" (cinder_catalog_info (glance_store config))) as Hfields.
  unfold __init__.
  destruct (str_split ":" (cinder_catalog_info (glance_store config)))
    as [|a [|b [|c [|d rest]]]]; cbn [List.length] in Hlen.
  - discriminate.
  - split; [split; [intros [store H]; discriminate|intros H; lia]|discriminate].
  - split; [split; [intros [store H]; discriminate|intros H; lia]|discriminate].
  - split; [split; [intros _; lia|intros _; eauto]|].
    intros store [= <-]. cbn [service_type service_name endpoint_type
                               conf session other_attrs].
    rewrite !str_join_cons in Hjoin. cbn [str_join] in Hjoin.
    rewrite !append_cons, !append_empty_l.
    inversion Hfields as [|? ? Ha Hrest]; subst.
    inversion Hrest as [|? ? Hb Hrest']; subst.
    inversion Hrest' as [|? ? Hc _]; subst.
    repeat split; auto.
  - split; [split; [intros [store H]; discriminate|intros H; lia]|discriminate].
Qed.

(** X2: the defaults of the options make a well-formed configuration:
    construction succeeds with the fields [volume], [cinder] and
    [publicURL], and the client of such an adapter is built without asking
    the context for its dictionary, with no region and three retries. *)
Theorem init_default_options (other : gmap string pyval) (loaded : SessionOpts) :
  let config := {| glance_store := default_options loaded |} in
  let store := {| conf := config;
                  session := load_from_conf_options config "glance_store";
                  service_type := "volume";
                  service_name := "cinder";
                  endpoint_type := "publicURL";
                  other_attrs := other |} in
  __init__ other config = Return store /\
  forall (str_mod : string -> gmap string pyval -> outcome string)
         (context : option Context)
         (records : list log_record) (sent : list request),
    _get_cinderclient str_mod context (State store records sent)
    = match context_get_auth_plugin context with
      | Return auth =>
          (Return {| client_session := {| session_group := "glance_store";
                                          session_loaded := loaded |};
                     client_auth := auth;
                     client_region_name := None;
                     client_retries := 3 |},
           State store records sent)
      | Raise e => (Raise e, State store records sent)
      end.
Proof.
  cbv zeta. split; [reflexivity|].
  intros str_mod context records sent. rewrite get_cinderclient_eq.
  cbn [interpolation this conf glance_store default_options
       cinder_endpoint_template truthy].
  now destruct (context_get_auth_plugin context).
Qed.

(** ** get_size, whatever the context and the service do *)

Lemma app_one_ne {A} (l : list A) (x : A) : (l ++ [x])%list <> l.
Proof.
  intros H. apply (f_equal List.length) in H.
  rewrite length_app in H. simpl in H. lia.
Qed.

Section GetSizeFacts.
Variable str_mod : string -> gmap string pyval -> outcome string.
Variable volumes_get : CinderClient -> pyval -> outcome Volume.t.

Lemma get_cinderclient_state (context : option Context) (st : state Store) :
  snd (_get_cinderclient str_mod context st) = st.
Proof.
  rewrite get_cinderclient_eq.
  destruct (interpolation str_mod (this st) context); [|reflexivity].
  now destruct (context_get_auth_plugin context).
Qed.

(** [get_size] when the client cannot be built: the handlers see the
    exception and nothing has been sent. *)
Lemma get_size_without_client (location : Location) (ctx : Context)
  (st : state Store) (e : exn) :
  fst (_get_cinderclient str_mod (Some ctx) st) = Raise e ->
  get_size str_mod volumes_get location (Some ctx) st =
  if isinstance e cinder_exception.NotFound then
    match other_attrs (this st) !! "volume_id" with
    | Some v =>
        let reason :=
          "Failed to get image size due to volume can not be found: "
          ++ py_str v in
        (Raise (NotFound reason),
         State (this st) (LOG st ++ [LogError reason])%list (wire st))
    | None => (Raise (AttributeError "Store" "volume_id"), st)
    end
  else if isinstance e ks_exceptions.EndpointNotFound then
    (Raise (BadStoreConfiguration "cinder" "Cinder endpoint could not be determined"), st)
  else
    (Return 0,
     State (this st)
       (LOG st ++ [LogException "Failed to get image size due to internal error: %s" e])%list
       (wire st)).
Proof.
  intros H.
  pose proof (get_cinderclient_state (Some ctx) st) as Hst.
  unfold get_size, try_except, bind at 1. cbn [_check_context ret].
  unfold bind at 1.
  destruct (_get_cinderclient str_mod (Some ctx) st) as [r st0].
  cbn [fst snd] in H, Hst. subst r st0.
  destruct (isinstance e cinder_exception.NotFound).
  - unfold bind, getattr_by_name.
    destruct (other_attrs (this st) !! "volume_id"); reflexivity.
  - destruct (isinstance e ks_exceptions.EndpointNotFound); [reflexivity|].
    rewrite isinstance_Exception. reflexivity.
Qed.

Ltac frame_case :=
  cbn [fst snd this LOG wire];
  split; [reflexivity|];
  split; first [left; reflexivity | right; eexists; reflexivity].

(** X3: whatever the context and the volume service do, [get_size] leaves
    the driver instance as it is, sends at most one request, for the volume
    id of the location, and writes at most one log record. *)
Theorem get_size_frame (location : Location) (context : option Context)
  (st : state Store) :
  let st' := snd (get_size str_mod volumes_get location context st) in
  this st' = this st /\
  (wire st' = wire st \/
   exists client,
     wire st' = (wire st ++ [VolumesGet client (volume_id (store_location location))])%list) /\
  (LOG st' = LOG st \/ exists record, LOG st' = (LOG st ++ [record])%list).
Proof.
  cbv zeta. destruct context as [ctx|].
  - destruct (fst (_get_cinderclient str_mod (Some ctx) st)) as [client|e] eqn:H.
    + rewrite (get_size_with_client _ _ _ _ _ _ H). cbv zeta.
      destruct (volumes_get client _) as [volume|e]; [frame_case|].
      destruct (isinstance e cinder_exception.NotFound).
      * destruct (other_attrs (this st) !! "volume_id"); frame_case.
      * destruct (isinstance e ks_exceptions.EndpointNotFound); frame_case.
    + rewrite (get_size_without_client _ _ _ _ H).
      destruct (isinstance e cinder_exception.NotFound).
      * destruct (other_attrs (this st) !! "volume_id"); frame_case.
      * destruct (isinstance e ks_exceptions.EndpointNotFound); frame_case.
  - frame_case.
Qed.

(** X4: when the context is there but the client cannot be built (the
    context's methods or the interpolation of the template raise), no
    request is sent; unless the exception is one of the two kinds the first
    handlers name, it is logged and [get_size] returns 0. *)
Theorem get_size_client_failure (location : Location) (ctx : Context)
  (st : state Store) (e : exn) :
  fst (_get_cinderclient str_mod (Some ctx) st) = Raise e ->
  wire (snd (get_size str_mod volumes_get location (Some ctx) st)) = wire st /\
  (isinstance e cinder_exception.NotFound = false ->
   isinstance e ks_exceptions.EndpointNotFound = false ->
   get_size str_mod volumes_get location (Some ctx) st
   = (Return 0,
      State (this st)
        (LOG st ++ [LogException "Failed to get image size due to internal error: %s" e])
        (wire st))).
Proof.
  intros H. rewrite (get_size_without_client _ _ _ _ H). split.
  - destruct (isinstance e cinder_exception.NotFound).
    + now destruct (other_attrs (this st) !! "volume_id").
    + now destruct (isinstance e ks_exceptions.EndpointNotFound).
  - now intros -> ->.
Qed.

(** X5: a size [get_size] returns is a whole number of gigabytes; when
    nothing was logged it is the size the volume service reported for the
    volume of the location, and when something was logged it is 0. *)
Theorem get_size_returned (location : Location) (context : option Context)
  (st st' : state Store) (n : Z) :
  get_size str_mod volumes_get location context st = (Return n, st') ->
  (1024 ^ 3 | n) /\
  (LOG st' = LOG st ->
   exists client volume,
     fst (_get_cinderclient str_mod context st) = Return client /\
     volumes_get client (volume_id (store_location location)) = Return volume /\
     n = Volume.size volume * 1024 ^ 3) /\
  (LOG st' <> LOG st -> n = 0).
Proof.
  destruct context as [ctx|].
  - destruct (fst (_get_cinderclient str_mod (Some ctx) st)) as [client|e] eqn:H.
    + rewrite (get_size_with_client _ _ _ _ _ _ H). cbv zeta.
      destruct (volumes_get client _) as [volume|e] eqn:Hget.
      * intros [= <- <-]. cbn [LOG]. repeat split.
        -- apply Z.divide_factor_r.
        -- intros _. now exists client, volume.
        -- intros Hne. now elim Hne.
      * destruct (isinstance e cinder_exception.NotFound).
        -- destruct (other_attrs (this st) !! "volume_id"); discriminate.
        -- destruct (isinstance e ks_exceptions.EndpointNotFound); [discriminate|].
           intros [= <- <-]. cbn [LOG]. repeat split.
           ++ apply Z.divide_0_r.
           ++ intros Hl. now apply app_one_ne in Hl.
    + rewrite (get_size_without_client _ _ _ _ H).
      destruct (isinstance e cinder_exception.NotFound).
      * destruct (other_attrs (this st) !! "volume_id"); discriminate.
      * destruct (isinstance e ks_exceptions.EndpointNotFound); [discriminate|].
        intros [= <- <-]. cbn [LOG]. repeat split.
        -- apply Z.divide_0_r.
        -- intros Hl. now apply app_one_ne in Hl.
  - cbn. intros [= <- <-]. cbn [LOG]. repeat split.
    + apply Z.divide_0_r.
    + intros Hl. now apply app_one_ne in Hl.
Qed.
End GetSizeFacts.

Lemma get_size_client_failure_witness :
  get_size percent_format (reporting 5) example_location (Some keyless_context)
    (State (example_store (Some example_template)) [] [])
  = (Return 0,
     State (example_store (Some example_template))
       [LogException "Failed to get image size due to internal error: %s"
          (Foreign ["KeyError"; "LookupError"] "project_id")]
       []).
Proof.
  apply (get_size_client_failure percent_format (reporting 5) example_location
           keyless_context (State (example_store (Some example_template)) [] [])
           (Foreign ["KeyError"; "LookupError"] "project_id"));
    reflexivity.
Defined.

Lemma get_size_returned_witness : (1024 ^ 3 | 5368709120).
Proof.
  apply (get_size_returned percent_format (reporting 5) example_location
           (Some example_context) (State (example_store None) [] [])
           (State (example_store None) []
              [VolumesGet example_client (PyStr "2aa1d1c2-5f0c-4e8f-8e0d-111111111111")])
           5368709120).
  reflexivity.
Defined.

(** ** _get_cinderclient, template or not *)

(** X6: with no endpoint template, or an empty one, the context is never
    asked for its dictionary and nothing is interpolated: the outcome is
    that of asking the context for its plugin, and nothing is logged or
    sent. *)
Theorem get_cinderclient_no_template
  (str_mod : string -> gmap string pyval -> outcome string)
  (context : option Context) (st : state Store) :
  truthy (cinder_endpoint_template (glance_store (conf (this st)))) = false ->
  _get_cinderclient str_mod context st
  = match context_get_auth_plugin context with
    | Return auth => (Return (built_client (this st) auth), st)
    | Raise e => (Raise e, st)
    end.
Proof.
  intros H. rewrite get_cinderclient_eq. unfold interpolation. now rewrite H.
Qed.

Lemma get_cinderclient_no_template_witness :
  _get_cinderclient (fun _ _ => Raise (ValueError "unused"))
    (Some {| to_dict := Raise (AttributeError "RequestContext" "to_dict");
             get_auth_plugin := Return (Plugin "token") |})
    (State (example_store (Some "")) [] [])
  = (Return example_client, State (example_store (Some "")) [] []).
Proof.
  apply (get_cinderclient_no_template (fun _ _ => Raise (ValueError "unused"))
           (Some {| to_dict := Raise (AttributeError "RequestContext" "to_dict");
                    get_auth_plugin := Return (Plugin "token") |})
           (State (example_store (Some "")) [] [])).
  reflexivity.
Defined.

(** X7: called with no context, [_get_cinderclient] raises the
    [AttributeError] of a method call on [None], for [to_dict] when a
    template is configured and for [get_auth_plugin] otherwise, and changes
    nothing; it is [get_size] that checks the context first. *)
Theorem get_cinderclient_none_context
  (str_mod : string -> gmap string pyval -> outcome string) (st : state Store) :
  _get_cinderclient str_mod None st
  = (Raise (AttributeError "NoneType"
              (if truthy (cinder_endpoint_template (glance_store (conf (this st))))
               then "to_dict" else "get_auth_plugin")),
     st).
Proof.
  rewrite get_cinderclient_eq. unfold interpolation.
  now destruct (truthy _).
Qed.

(** ** get_size and the configuration *)

Section GetSizeConfiguration.
Variable str_mod : string -> gmap string pyval -> outcome string.
Variable volumes_get : CinderClient -> pyval -> outcome Volume.t.

(** What of the driver instance [get_size] depends on. *)
Lemma get_size_depends (location : Location) (context : option Context)
  (self1 self2 : Store) (records : list log_record) (sent : list request) :
  (forall auth, built_client self1 auth = built_client self2 auth) ->
  other_attrs self1 !! "volume_id" = other_attrs self2 !! "volume_id" ->
  interpolation str_mod self1 context = interpolation str_mod self2 context ->
  let r1 := get_size str_mod volumes_get location context (State self1 records sent) in
  let r2 := get_size str_mod volumes_get location context (State self2 records sent) in
  fst r1 = fst r2 /\ LOG (snd r1) = LOG (snd r2) /\ wire (snd r1) = wire (snd r2).
Proof.
  intros Hclient Hattr Hint. cbv zeta.
  destruct context as [ctx|]; [|now cbn].
  pose proof (get_cinderclient_eq str_mod (Some ctx) (State self1 records sent)) as H1.
  pose proof (get_cinderclient_eq str_mod (Some ctx) (State self2 records sent)) as H2.
  cbn [this] in H1, H2. rewrite <- Hint in H2.
  destruct (interpolation str_mod self1 (Some ctx)) as [[]|e].
  - destruct (context_get_auth_plugin (Some ctx)) as [auth|e].
    + rewrite <- (Hclient auth) in H2.
      apply (f_equal fst) in H1, H2. cbn [fst] in H1, H2.
      rewrite (get_size_with_client _ _ _ _ _ _ H1),
        (get_size_with_client _ _ _ _ _ _ H2).
      cbv zeta. cbn [this LOG wire].
      destruct (volumes_get _ _) as [volume|e]; [now cbn|].
      destruct (isinstance e cinder_exception.NotFound).
      * rewrite <- Hattr.
        now destruct (other_attrs self1 !! "volume_id").
      * now destruct (isinstance e ks_exceptions.EndpointNotFound).
    + apply (f_equal fst) in H1, H2. cbn [fst] in H1, H2.
      rewrite (get_size_without_client _ _ _ _ _ _ H1),
        (get_size_without_client _ _ _ _ _ _ H2).
      cbn [this LOG wire].
      destruct (isinstance e cinder_exception.NotFound).
      * rewrite <- Hattr.
        now destruct (other_attrs self1 !! "volume_id").
      * now destruct (isinstance e ks_exceptions.EndpointNotFound).
  - apply (f_equal fst) in H1, H2. cbn [fst] in H1, H2.
    rewrite (get_size_without_client _ _ _ _ _ _ H1),
      (get_size_without_client _ _ _ _ _ _ H2).
    cbn [this LOG wire].
    destruct (isinstance e cinder_exception.NotFound).
    + rewrite <- Hattr.
      now destruct (other_attrs self1 !! "volume_id").
    + now destruct (isinstance e ks_exceptions.EndpointNotFound).
Qed.

(** X8: the service type, the service name and the endpoint type that
    construction reads from the catalog info have no part in [get_size]:
    with any other three, it returns or raises the same, logs the same and
    sends the same request. *)
Theorem get_size_ignores_catalog_fields (location : Location)
  (context : option Context) (self : Store)
  (records : list log_record) (sent : list request)
  (service_type service_name endpoint_type : string) :
  let other :=
    reconfigured (cinder_endpoint_template (glance_store (conf self)))
      service_type service_name endpoint_type self in
  let r := get_size str_mod volumes_get location context (State self records sent) in
  let r' := get_size str_mod volumes_get location context (State other records sent) in
  fst r' = fst r /\ LOG (snd r') = LOG (snd r) /\ wire (snd r') = wire (snd r).
Proof.
  cbv zeta. now apply get_size_depends.
Qed.

(** X9: an endpoint template changes what [get_size] does only by failing
    to interpolate: when the interpolation goes through, [get_size] returns
    or raises, logs and sends exactly what it does with no template at
    all. *)
Theorem get_size_template_without_effect (location : Location)
  (context : option Context) (self : Store)
  (records : list log_record) (sent : list request) :
  interpolation str_mod self context = Return tt ->
  let other :=
    reconfigured None (service_type self) (service_name self) (endpoint_type self) self in
  let r := get_size str_mod volumes_get location context (State self records sent) in
  let r' := get_size str_mod volumes_get location context (State other records sent) in
  fst r' = fst r /\ LOG (snd r') = LOG (snd r) /\ wire (snd r') = wire (snd r).
Proof.
  intros H. cbv zeta. apply get_size_depends; [reflexivity|reflexivity|].
  now rewrite H.
Qed.
End GetSizeConfiguration.

Lemma get_size_template_without_effect_witness :
  fst (get_size percent_format (reporting 5) example_location (Some example_context)
         (State (reconfigured None "volume" "cinder" "publicURL"
                   (example_store (Some example_template))) [] []))
  = fst (get_size percent_format (reporting 5) example_location (Some example_context)
           (State (example_store (Some example_template)) [] [])).
Proof.
  apply (get_size_template_without_effect percent_format (reporting 5)
           example_location (Some example_context)
           (example_store (Some example_template)) [] []).
  reflexivity.
Defined.

(** ** The location class, beyond the contract of the parser *)

(** X10: [parse_uri] sends nothing and leaves the spec mapping alone; it
    logs exactly when it fails, one info record with the message of the
    [BadStoreUri] it raises.  Without the prefix the location is untouched;
    with it, the scheme and the volume id are stored before the id is
    checked, so a URI rejected for its id leaves them on the location. *)
Theorem parse_uri_effects (check : pyval -> bool) (uri : string)
  (st : state StoreLocation) :
  let r := fst (parse_uri check uri st) in
  let st' := snd (parse_uri check uri st) in
  wire st' = wire st /\
  specs (this st') = specs (this st) /\
  match r with
  | Return _ => LOG st' = LOG st
  | Raise e =>
      exists reason, e = BadStoreUri reason /\ LOG st' = (LOG st ++ [LogInfo reason])%list
  end /\
  (startswith uri "cinder://" = false -> this st' = this st) /\
  (startswith uri "cinder://" = true ->
   scheme (this st') = PyStr "cinder" /\
   volume_id (this st') = PyStr (slice_from 9 uri)).
Proof.
  cbv zeta. rewrite parse_uri_eq.
  destruct (startswith uri "cinder://").
  - destruct (check (PyStr (slice_from 9 uri))); cbn [fst snd this LOG wire specs].
    + repeat split; try discriminate; auto.
    + repeat split; try discriminate; eauto.
  - cbn [fst snd this LOG wire specs]. repeat split; try discriminate; eauto.
Qed.

(** X11: a URI that [parse_uri] accepts is rendered back by [get_uri]
    character for character. *)
Theorem get_uri_of_parsed (check : pyval -> bool) (uri : string)
  (st st' : state StoreLocation) :
  parse_uri check uri st = (Return tt, st') ->
  get_uri (this st') = uri.
Proof.
  intros H. apply parse_uri_success in H as (Hp & _ & ->).
  symmetry. exact (startswith_cinder uri Hp).
Qed.

Lemma get_uri_of_parsed_witness :
  get_uri parsed_location = "cinder://2aa1d1c2-5f0c-4e8f-8e0d-111111111111".
Proof.
  apply (get_uri_of_parsed utils.is_uuid_like
           "cinder://2aa1d1c2-5f0c-4e8f-8e0d-111111111111"
           (State blank_location [] []) (State parsed_location [] [])).
  reflexivity.
Defined.

(** X12: what [get_uri] renders always passes the prefix test of
    [parse_uri]; it parses exactly when the text of the volume id is
    UUID-like, and is otherwise rejected for its id.  For a location
    without a volume id that text is [None]. *)
Theorem parse_uri_of_rendered (check : pyval -> bool) (self : StoreLocation)
  (st : state StoreLocation) :
  fst (parse_uri check (get_uri self) st)
  = (if check (PyStr (py_str (volume_id self))) then Return tt
     else Raise (BadStoreUri "URI contains invalid volume ID")) /\
  (volume_id self = PyNone ->
   fst (parse_uri check (get_uri self) st)
   = if check (PyStr "None") then Return tt
     else Raise (BadStoreUri "URI contains invalid volume ID")).
Proof.
  assert (fst (parse_uri check (get_uri self) st)
          = (if check (PyStr (py_str (volume_id self))) then Return tt
             else Raise (BadStoreUri "URI contains invalid volume ID"))) as H.
  { rewrite parse_uri_eq, startswith_get_uri, slice_get_uri.
    now destruct (check _). }
  split; [exact H|]. intros Hnone. rewrite H, Hnone. reflexivity.
Qed.

(** X13: of [process_specs] and [parse_uri] on one location, the later
    wins: after a successful parse, [process_specs] puts back what the spec
    mapping says, as if nothing had been parsed; and once the prefix is
    there, [parse_uri] does what it does on a fresh location, whatever
    [process_specs] had stored. *)
Theorem later_call_wins (check : pyval -> bool) (uri : string)
  (st : state StoreLocation) :
  (fst (parse_uri check uri st) = Return tt ->
   parse_then_process check uri st = process_specs st) /\
  (startswith uri "cinder://" = true ->
   process_then_parse check uri st = parse_uri check uri st).
Proof.
  split.
  - intros H. unfold parse_then_process, bind.
    rewrite parse_uri_eq in *.
    destruct (startswith uri "cinder://"); [|discriminate].
    destruct (check (PyStr (slice_from 9 uri))); [|discriminate].
    reflexivity.
  - intros H. unfold process_then_parse, bind.
    change (process_specs st)
      with (Return tt,
            State {| specs := specs (this st);
                     scheme := dict_get (specs (this st)) "scheme" (PyStr "cinder");
                     volume_id := dict_get (specs (this st)) "volume_id" PyNone |}
              (LOG st) (wire st)).
    now rewrite !parse_uri_eq, H.
Qed.

Lemma cinder_uri_injective (a b : string) :
  "cinder://" ++ a = "cinder://" ++ b -> a = b.
Proof.
  intros H. apply (f_equal (slice_from (String.length "cinder://"))) in H.
  now rewrite !slice_from_append in H.
Qed.

(** X14: two locations render to the same URI exactly when their volume
    ids have the same text; so distinct string ids give distinct URIs, while
    a missing id and the id [None] give the same one. *)
Theorem get_uri_same (self1 self2 : StoreLocation) :
  (get_uri self1 = get_uri self2
   <-> py_str (volume_id self1) = py_str (volume_id self2)) /\
  (forall a b,
      volume_id self1 = PyStr a -> volume_id self2 = PyStr b ->
      get_uri self1 = get_uri self2 -> a = b) /\
  (volume_id self1 = PyNone -> volume_id self2 = PyStr "None" ->
   get_uri self1 = get_uri self2).
Proof.
  unfold get_uri. repeat split.
  - apply cinder_uri_injective.
  - now intros ->.
  - intros a b Ha Hb H. rewrite Ha, Hb in H. now apply cinder_uri_injective in H.
  - intros Ha Hb. now rewrite Ha, Hb.
Qed.

(** X15: the schemes the driver answers for are those of its locations:
    every scheme [get_schemes] lists, followed by [://], starts every URI
    [get_uri] renders, and is the scheme [parse_uri] stores on the locations
    it accepts. *)
Theorem get_schemes_of_locations (s : string) :
  s ∈ get_schemes ->
  (forall self, startswith (get_uri self) (s ++ "://") = true) /\
  (forall (check : pyval -> bool) (uri : string) (st st' : state StoreLocation),
      parse_uri check uri st = (Return tt, st') -> scheme (this st') = PyStr s).
Proof.
  unfold get_schemes. intros Hs. apply list_elem_of_singleton in Hs as ->. split.
  - apply startswith_get_uri.
  - intros check uri st st' H. now apply parse_uri_success in H as (_ & _ & ->).
Qed.

Lemma get_schemes_of_locations_witness :
  startswith (get_uri parsed_location) ("cinder" ++ "://") = true.
Proof.
  apply (get_schemes_of_locations "cinder").
  apply list_elem_of_singleton. reflexivity.
Defined.

(** ** What leaves get_size, signals counted in *)

Lemma instance_of_error (e : exn) (cls : string) :
  instance_of (Error e) cls = isinstance e cls.
Proof. reflexivity. Qed.

Section WideFacts.
Variable str_mod : string -> gmap string pyval -> result string.
Variable volumes_get : CinderClient -> pyval -> result Volume.t.

(** Building the client changes nothing; what it raises, one of the calls
    it makes has raised. *)
Lemma wide_get_cinderclient_cases (ctx : Wide.Context) (st : state Store) :
  (exists auth,
      Wide.get_auth_plugin ctx = Returned auth /\
      Wide._get_cinderclient str_mod (Some ctx) st
      = (Returned (built_client (this st) auth), st)) \/
  (exists t,
      Wide._get_cinderclient str_mod (Some ctx) st = (Thrown t, st) /\
      (Wide.to_dict ctx = Thrown t \/
       (exists template mapping, str_mod template mapping = Thrown t) \/
       Wide.get_auth_plugin ctx = Thrown t)).
Proof.
  unfold Wide._get_cinderclient, Wide.bind, Wide.getattr, Wide.call, Wide.ret.
  cbn [Wide.context_to_dict Wide.context_get_auth_plugin].
  destruct (truthy _).
  - destruct (Wide.to_dict ctx) as [mapping|t] eqn:Hd; [|right; exists t; auto].
    destruct (str_mod _ mapping) as [endpoint|t] eqn:Hf; [|right; exists t; eauto 6].
    destruct (Wide.get_auth_plugin ctx) as [auth|t] eqn:Ha;
      [left; now exists auth|right; exists t; auto].
  - destruct (Wide.get_auth_plugin ctx) as [auth|t] eqn:Ha;
      [left; now exists auth|right; exists t; auto].
Qed.

(** [get_size] with a context: the client is built or not, the request
    answered or not, and the handlers see what was raised. *)
Lemma wide_get_size_eq (location : Location) (ctx : Wide.Context)
  (st : state Store) :
  Wide.get_size str_mod volumes_get location (Some ctx) st =
  match Wide._get_cinderclient str_mod (Some ctx) st with
  | (Returned client, st1) =>
      let id := volume_id (store_location location) in
      let st2 := State (this st1) (LOG st1) (wire st1 ++ [VolumesGet client id])%list in
      match volumes_get client id with
      | Returned volume => (Returned (Volume.size volume * 1024 ^ 3), st2)
      | Thrown t => handled t st2
      end
  | (Thrown t, st1) => handled t st1
  end.
Proof.
  assert (forall t s,
             (if instance_of t cinder_exception.NotFound then
                Wide.bind (Wide.getattr_by_name "volume_id")
                  (fun v =>
                     Wide.bind
                       (Wide.log
                          (LogError
                             ("Failed to get image size due to volume can not be found: "
                              ++ py_str v)))
                       (fun _ =>
                          Wide.raise
                            (Error
                               (NotFound
                                  ("Failed to get image size due to volume can not be found: "
                                   ++ py_str v)))))
              else if instance_of t ks_exceptions.EndpointNotFound then
                Wide.raise (Error (BadStoreConfiguration "cinder"
                                     "Cinder endpoint could not be determined"))
              else if instance_of t "Exception" then
                Wide.bind
                  (Wide.log
                     (LogException "Failed to get image size due to internal error: %s"
                        (caught t)))
                  (fun _ => Wide.ret 0)
              else Wide.raise t) s = handled t s) as Hh.
  { intros t s. unfold handled.
    destruct (instance_of t cinder_exception.NotFound).
    - unfold Wide.bind, Wide.getattr_by_name.
      now destruct (other_attrs (this s) !! "volume_id").
    - destruct (instance_of t ks_exceptions.EndpointNotFound); [reflexivity|].
      now destruct (instance_of t "Exception"). }
  unfold Wide.get_size, Wide.try_except. unfold Wide.bind at 1.
  cbn [Wide._check_context Wide.ret]. unfold Wide.bind at 1.
  destruct (Wide._get_cinderclient str_mod (Some ctx) st) as [[client|t] st1];
    [|apply Hh].
  unfold Wide.client_volumes_get, Wide.bind, Wide.send, Wide.call. cbv zeta.
  destruct (volumes_get client _) as [volume|t]; [reflexivity|apply Hh].
Qed.

(** X16: with the exceptions that are not errors counted in, [get_size]
    raises only with a context, and what it raises is the
    [BadStoreConfiguration] of the endpoint handler, or comes out of the
    not-found handler ([AttributeError] when the driver instance has no
    attribute [volume_id], and otherwise a [NotFound] whose message names
    that attribute of the driver, not the volume id of the location), or is
    an exception that one of its calls raised and that is not an instance of
    [Exception], which no clause catches. *)
Theorem get_size_crossing (location : Location) (context : option Wide.Context)
  (st st' : state Store) (t : thrown) :
  Wide.get_size str_mod volumes_get location context st = (Thrown t, st') ->
  exists ctx,
    context = Some ctx /\
    (t = Error (BadStoreConfiguration "cinder" "Cinder endpoint could not be determined") \/
     (t = Error (AttributeError "Store" "volume_id") /\
      other_attrs (this st) !! "volume_id" = None) \/
     (exists v,
         other_attrs (this st) !! "volume_id" = Some v /\
         t = Error (NotFound ("Failed to get image size due to volume can not be found: "
                              ++ py_str v))) \/
     (instance_of t "Exception" = false /\
      raised_by_a_call str_mod volumes_get location ctx t)).
Proof.
  destruct context as [ctx|]; [|discriminate].
  intros H. exists ctx. split; [reflexivity|]. revert H.
  rewrite wide_get_size_eq.
  assert (forall t0 s,
             this s = this st ->
             raised_by_a_call str_mod volumes_get location ctx t0 ->
             handled t0 s = (Thrown t, st') ->
             t = Error (BadStoreConfiguration "cinder"
                          "Cinder endpoint could not be determined") \/
             (t = Error (AttributeError "Store" "volume_id") /\
              other_attrs (this st) !! "volume_id" = None) \/
             (exists v,
                 other_attrs (this st) !! "volume_id" = Some v /\
                 t = Error (NotFound
                              ("Failed to get image size due to volume can not be found: "
                               ++ py_str v))) \/
             (instance_of t "Exception" = false /\
              raised_by_a_call str_mod volumes_get location ctx t)) as Hh.
  { intros t0 s Hs Hr. unfold handled. rewrite Hs.
    destruct (instance_of t0 cinder_exception.NotFound).
    - destruct (other_attrs (this st) !! "volume_id") as [v|] eqn:Hattr;
        intros [= <- <-]; [right; right; left; now exists v|right; left; now split].
    - destruct (instance_of t0 ks_exceptions.EndpointNotFound);
        [intros [= <- <-]; now left|].
      destruct (instance_of t0 "Exception") eqn:Hex; [discriminate|].
      intros [= <- <-]. right. right. right. now split. }
  destruct (wide_get_cinderclient_cases ctx st)
    as [[auth [Ha ->]]|[t0 [-> Hr]]].
  - cbv zeta. cbn [this LOG wire].
    destruct (volumes_get _ _) as [volume|t0] eqn:Hget; [discriminate|].
    apply Hh; [reflexivity|].
    right. right. right. eexists. exact Hget.
  - apply Hh; [reflexivity|].
    destruct Hr as [Hr|[Hr|Hr]]; [now left|right; now left|right; right; now left].
Qed.
End WideFacts.

(** An interrupt during the request is not an error: it is neither logged
    nor turned into a size, and leaves [get_size] as it is. *)
Lemma get_size_interrupted :
  Wide.get_size (fun template mapping => widen (percent_format template mapping))
    interrupted example_location (Some (widen_context example_context))
    (State (example_store None) [] [])
  = (Thrown keyboard_interrupt,
     State (example_store None) []
       [VolumesGet example_client (PyStr "2aa1d1c2-5f0c-4e8f-8e0d-111111111111")]).
Proof. reflexivity. Qed.

Lemma get_size_crossing_witness :
  exists ctx,
    Some (widen_context example_context) = Some ctx /\
    (keyboard_interrupt
     = Error (BadStoreConfiguration "cinder" "Cinder endpoint could not be determined") \/
     (keyboard_interrupt = Error (AttributeError "Store" "volume_id") /\
      other_attrs (example_store None) !! "volume_id" = None) \/
     (exists v,
         other_attrs (example_store None) !! "volume_id" = Some v /\
         keyboard_interrupt
         = Error (NotFound ("Failed to get image size due to volume can not be found: "
                            ++ py_str v))) \/
     (instance_of keyboard_interrupt "Exception" = false /\
      raised_by_a_call
        (fun template mapping => widen (percent_format template mapping))
        interrupted example_location ctx keyboard_interrupt)).
Proof.
  apply (get_size_crossing
           (fun template mapping => widen (percent_format template mapping))
           interrupted example_location (Some (widen_context example_context))
           (State (example_store None) [] [])
           (State (example_store None) []
              [VolumesGet example_client
                 (PyStr "2aa1d1c2-5f0c-4e8f-8e0d-111111111111")])
           keyboard_interrupt).
  reflexivity.
Defined.

(** ** The two drivers agree on errors *)

Section Agreement.
Variable str_mod : string -> gmap string pyval -> outcome string.
Variable volumes_get : CinderClient -> pyval -> outcome Volume.t.

Lemma wide_get_cinderclient_agrees (context : option Context) (st : state Store) :
  Wide._get_cinderclient (fun template mapping => widen (str_mod template mapping))
    (option_map widen_context context) st
  = (widen (fst (_get_cinderclient str_mod context st)), st).
Proof.
  rewrite get_cinderclient_eq. unfold interpolation.
  unfold Wide._get_cinderclient, Wide.bind, Wide.getattr, Wide.call, Wide.ret.
  destruct context as [ctx|];
    cbn [option_map Wide.context_to_dict Wide.context_get_auth_plugin
         context_to_dict context_get_auth_plugin widen_context
         Wide.to_dict Wide.get_auth_plugin].
  - destruct (truthy _).
    + destruct (to_dict ctx) as [mapping|e]; [|reflexivity]. cbn [widen].
      destruct (str_mod _ mapping) as [endpoint|e]; [|reflexivity]. cbn [widen].
      now destruct (get_auth_plugin ctx).
    + now destruct (get_auth_plugin ctx).
  - now destruct (truthy _).
Qed.

(** On a context and a volume service that raise errors only, the driver
    with signals counted in does what the driver above does. *)
Lemma wide_get_size_agrees (location : Location) (context : option Context)
  (st : state Store) :
  Wide.get_size (fun template mapping => widen (str_mod template mapping))
    (fun client id => widen (volumes_get client id))
    location (option_map widen_context context) st
  = (widen (fst (get_size str_mod volumes_get location context st)),
     snd (get_size str_mod volumes_get location context st)).
Proof.
  assert (forall e s,
             handled (Error e) s
             = (widen (fst (if isinstance e cinder_exception.NotFound then
                              match other_attrs (this s) !! "volume_id" with
                              | Some v =>
                                  (Raise (NotFound
                                     ("Failed to get image size due to volume can not be found: "
                                      ++ py_str v)),
                                   State (this s)
                                     (LOG s ++ [LogError
                                        ("Failed to get image size due to volume can not be found: "
                                         ++ py_str v)])%list (wire s))
                              | None => (Raise (AttributeError "Store" "volume_id"), s)
                              end
                            else if isinstance e ks_exceptions.EndpointNotFound then
                              (Raise (BadStoreConfiguration "cinder"
                                        "Cinder endpoint could not be determined"), s)
                            else
                              (Return 0,
                               State (this s)
                                 (LOG s ++ [LogException
                                    "Failed to get image size due to internal error: %s" e])%list
                                 (wire s)))),
                snd (if isinstance e cinder_exception.NotFound then
                       match other_attrs (this s) !! "volume_id" with
                       | Some v =>
                           (@Raise Z (NotFound
                              ("Failed to get image size due to volume can not be found: "
                               ++ py_str v)),
                            State (this s)
                              (LOG s ++ [LogError
                                 ("Failed to get image size due to volume can not be found: "
                                  ++ py_str v)])%list (wire s))
                       | None => (Raise (AttributeError "Store" "volume_id"), s)
                       end
                     else if isinstance e ks_exceptions.EndpointNotFound then
                       (Raise (BadStoreConfiguration "cinder"
                                 "Cinder endpoint could not be determined"), s)
                     else
                       (Return 0,
                        State (this s)
                          (LOG s ++ [LogException
                             "Failed to get image size due to internal error: %s" e])%list
                          (wire s))))) as Hh.
  { intros e s. unfold handled. rewrite !instance_of_error, isinstance_Exception.
    destruct (isinstance e cinder_exception.NotFound).
    - now destruct (other_attrs (this s) !! "volume_id").
    - now destruct (isinstance e ks_exceptions.EndpointNotFound). }
  destruct context as [ctx|]; [|reflexivity].
  cbn [option_map]. rewrite wide_get_size_eq.
  change (Some (widen_context ctx)) with (option_map widen_context (Some ctx)).
  rewrite wide_get_cinderclient_agrees.
  destruct (fst (_get_cinderclient str_mod (Some ctx) st)) as [client|e] eqn:Hc;
    cbn [widen].
  - rewrite (get_size_with_client _ _ _ _ _ _ Hc). cbv zeta.
    destruct (volumes_get client _) as [volume|e]; cbn [widen]; [reflexivity|].
    rewrite Hh. cbn [this LOG wire]. reflexivity.
  - rewrite (get_size_without_client _ _ _ _ _ _ Hc).
    rewrite Hh. destruct st; reflexivity.
Qed.
End Agreement.
